(** * Job-status polling loops of the SageMaker example notebooks

    Two notebooks of the repository wait for an asynchronous SageMaker job
    with a sleep-and-poll loop:

    - [autopilot/sagemaker_autopilot_abalone_parquet_input.ipynb] (Python):
      polls [describe_auto_ml_job];
    - [r_examples/r_xgboost_hpo_batch_transform/r_xgboost_hpo_batch_transform.ipynb]
      (R): polls [describe_hyper_parameter_tuning_job].

    Both loops are embedded below as programs of a small state-and-error
    monad over a world that records every externally visible effect (API
    call, sleep, output).  The external service is an oracle that answers
    the k-th call; a loop that may run forever is cut by a bound on the
    number of iterations, and the outcome [Running] says that the bound was
    reached with the loop still going. *)

From Stdlib Require Import String List Bool Arith ZArith Lia.
From Stdlib Require Import Ascii.
From Stdlib Require QArith_base.
Import ListNotations.
Local Open Scope string_scope.
Local Open Scope list_scope.

(** ** The external service and the observable effects *)

(** What a raised exception carries (a botocore error, surfaced unchanged
    by reticulate on the R side). *)
Definition exn := string.

(** Answer of the status query: a response, or a raised exception. *)
Inductive reply (S : Type) : Type :=
| Returned (s : S)
| Raised (e : exn).
Arguments Returned {S} s.
Arguments Raised {S} e.

(** The service as the loop sees it: the answer to the k-th call (from 0). *)
Definition service (S : Type) := nat -> reply S.

(** An argument of R's [cat]: a character string or a number. *)
Inductive rvalue : Type :=
| RStr (s : string)
| RInt (z : Z).

Inductive event : Type :=
| Query (operation job_name : string)   (* a describe_* call was issued *)
| Sleep (seconds : nat)                 (* time.sleep / Sys.sleep *)
| Printed (line : string)               (* Python print *)
| Cat (args : list rvalue)              (* R cat, to stdout *)
| Message (text : string).              (* R message, to stderr *)

Record world : Type := World { calls : nat; log : list event }.

Definition w0 : world := World 0 [].

(** ** The monad of the notebook cells *)

Inductive outcome (A : Type) : Type :=
| Val (a : A)        (* the cell ran to its end *)
| Exn (e : exn)      (* an exception escaped the cell *)
| Running.           (* iteration bound reached, the loop is still going *)
Arguments Val {A} a.
Arguments Exn {A} e.
Arguments Running {A}.

Definition M (A : Type) : Type := world -> outcome A * world.

Definition ret {A} (a : A) : M A := fun w => (Val a, w).

Definition bind {A B} (m : M A) (k : A -> M B) : M B :=
  fun w =>
    match m w with
    | (Val a, w') => k a w'
    | (Exn e, w') => (Exn e, w')
    | (Running, w') => (Running, w')
    end.

Definition running {A} : M A := fun w => (Running, w).

Definition emit (e : event) : M unit :=
  fun w => (Val tt, World (calls w) (log w ++ [e])).

Declare Scope poll_scope.
Delimit Scope poll_scope with poll.
Notation "x <- m ;; k" := (bind m (fun x => k))
  (at level 100, m at next level, right associativity) : poll_scope.
Notation "m ;; k" := (bind m (fun _ => k))
  (at level 100, right associativity) : poll_scope.
Local Open Scope poll_scope.

(** One call of the status query: counted, logged, and answered by the
    service; a raised exception becomes the outcome of the cell. *)
Definition invoke {S} (svc : service S) (operation job_name : string) : M S :=
  fun w =>
    let w' := World (Datatypes.S (calls w)) (log w ++ [Query operation job_name]) in
    match svc (calls w) with
    | Returned s => (Val s, w')
    | Raised e => (Exn e, w')
    end.

Definition sleep (seconds : nat) : M unit := emit (Sleep seconds).

Definition map_outcome {A B} (f : A -> B) (r : outcome A * world)
  : outcome B * world :=
  match r with
  | (Val a, w) => (Val (f a), w)
  | (Exn e, w) => (Exn e, w)
  | (Running, w) => (Running, w)
  end.

(** Observations on a log. *)
Definition is_query (e : event) : bool :=
  match e with Query _ _ => true | _ => false end.

Definition is_sleep (e : event) : bool :=
  match e with Sleep _ => true | _ => false end.

Definition queries (l : list event) : nat := length (filter is_query l).

Definition sleeps (l : list event) : nat := length (filter is_sleep l).

(** The log without its output lines: calls and suspensions only. *)
Definition effects (l : list event) : list event :=
  filter (fun e => is_query e || is_sleep e) l.

(** ** The common shape of the two loops

    Both cells fetch a first snapshot, then repeat [sleep 60; fetch] while
    an exit test on the last snapshot fails.  They differ in the exit test
    and in where they write output.  [Poll] is that shape, with the exit
    test and the output left open; each cell is shown below to run exactly
    as the corresponding instance, so that the behaviour of the loop is
    analysed once. *)
Module Poll.
Section Poll.
Context {S : Type}.
Variable svc : service S.
Variables operation job : string.
Variable stop : S -> bool.                    (* exit test on a snapshot *)
Variable after_query : S -> list event.       (* output after each fetch *)
Variable header : list event.                 (* output before the loop *)
Variable before_sleep : S -> list event.      (* output at the top of the body *)

Fixpoint emits (l : list event) : M unit :=
  match l with
  | [] => ret tt
  | e :: l' => emit e ;; emits l'
  end.

Fixpoint loop (fuel : nat) (cur : S) : M S :=
  if stop cur then ret cur
  else
    match fuel with
    | O => running
    | Datatypes.S fuel' =>
        emits (before_sleep cur) ;;
        sleep 60 ;;
        s <- invoke svc operation job ;;
        emits (after_query s) ;;
        loop fuel' s
    end.

Definition run (fuel : nat) : M S :=
  s <- invoke svc operation job ;;
  emits (after_query s) ;;
  emits header ;;
  loop fuel s.

(** The log of a run, in closed form, from the snapshots it fetched. *)
Fixpoint iterations (cur : S) (l : list S) : list event :=
  match l with
  | [] => []
  | s :: l' =>
      before_sleep cur ++ [Sleep 60; Query operation job] ++ after_query s
        ++ iterations s l'
  end.

Definition trace (hist : list S) : list event :=
  match hist with
  | [] => []
  | s0 :: l => Query operation job :: after_query s0 ++ header ++ iterations s0 l
  end.

(** The log of a run whose next call, after the snapshots [hist], raised. *)
Definition trace_raised (hist : list S) : list event :=
  match hist with
  | [] => [Query operation job]
  | s0 :: l =>
      trace hist ++ before_sleep (last l s0) ++ [Sleep 60; Query operation job]
  end.

(** The service answers its first calls with the snapshots [l]. *)
Definition answers (l : list S) : Prop :=
  forall i s, nth_error l i = Some s -> svc i = Returned s.

Definition answers_from (k : nat) (l : list S) : Prop :=
  forall i s, nth_error l i = Some s -> svc (k + i) = Returned s.

Definition going (s : S) : Prop := stop s = false.

(** The calls and suspensions of a run that made [n] calls after the
    first one: a call, then [n] times a suspension of 60 seconds followed
    by a call. *)
Definition rhythm (n : nat) : list event :=
  Query operation job :: concat (repeat [Sleep 60; Query operation job] n).
End Poll.
End Poll.

(** ** The Python AutoML watcher

    [[
    response = client.describe_auto_ml_job(AutoMLJobName=job_name)
    status = response["AutoMLJobStatus"]
    secondary_status = response["AutoMLJobSecondaryStatus"]
    print(f"{status} - {secondary_status}")

    while status != "Completed" and secondary_status != "Failed":
        time.sleep(60)
        response = client.describe_auto_ml_job(AutoMLJobName=job_name)
        status = response["AutoMLJobStatus"]
        secondary_status = response["AutoMLJobSecondaryStatus"]
        print(f"{status} - {secondary_status}")
    ]] *)
Module AutoML.

(** The two fields of the describe_auto_ml_job response that the cell reads. *)
Record response_t : Type := Response {
  AutoMLJobStatus : string;
  AutoMLJobSecondaryStatus : string
}.

(** The variables of the cell. *)
Record vars : Type := Vars {
  response : response_t;
  status : string;
  secondary_status : string
}.

Definition describe_auto_ml_job (svc : service response_t) (job_name : string)
  : M response_t :=
  invoke svc "describe_auto_ml_job" job_name.

Definition print (line : string) : M unit := emit (Printed line).

(** f"{status} - {secondary_status}" *)
Definition status_line (status secondary_status : string) : string :=
  status ++ " - " ++ secondary_status.

(** status != "Completed" and secondary_status != "Failed" *)
Definition loop_condition (v : vars) : bool :=
  negb (status v =? "Completed") && negb (secondary_status v =? "Failed").

Section Cell.
Variable svc : service response_t.
Variable job_name : string.

Fixpoint while_loop (fuel : nat) (v : vars) : M vars :=
  if loop_condition v then
    match fuel with
    | O => running
    | Datatypes.S fuel' =>
        sleep 60 ;;
        response <- describe_auto_ml_job svc job_name ;;
        let status := AutoMLJobStatus response in
        let secondary_status := AutoMLJobSecondaryStatus response in
        print (status_line status secondary_status) ;;
        while_loop fuel' (Vars response status secondary_status)
    end
  else ret v.

Definition watch (fuel : nat) : M vars :=
  response <- describe_auto_ml_job svc job_name ;;
  let status := AutoMLJobStatus response in
  let secondary_status := AutoMLJobSecondaryStatus response in
  print (status_line status secondary_status) ;;
  while_loop fuel (Vars response status secondary_status).
End Cell.

(** The cell as an instance of the common shape: the variables are
    determined by the last response, the loop exits when the condition
    of the [while] is false, and every fetch is followed by one print. *)
Definition vars_of (r : response_t) : vars :=
  Vars r (AutoMLJobStatus r) (AutoMLJobSecondaryStatus r).

Definition stop (r : response_t) : bool := negb (loop_condition (vars_of r)).

Definition after_query (r : response_t) : list event :=
  [Printed (status_line (AutoMLJobStatus r) (AutoMLJobSecondaryStatus r))].

Definition header : list event := [].

Definition before_sleep (r : response_t) : list event := [].

(** The primary status of a snapshot. *)
Definition primary (r : response_t) : string := AutoMLJobStatus r.

(** What the [while] decides on a snapshot. *)
Definition continues (r : response_t) : Prop := loop_condition (vars_of r) = true.

Definition exits (r : response_t) : Prop := loop_condition (vars_of r) = false.

(** The cell run from the initial world, with a bound on the iterations. *)
Definition run_cell (svc : service response_t) (job_name : string) (fuel : nat)
  : outcome vars * world :=
  watch svc job_name fuel w0.

Definition operation : string := "describe_auto_ml_job".

(** The log of the cell after it fetched the snapshots [hist]. *)
Definition trace (job_name : string) (hist : list response_t) : list event :=
  Poll.trace operation job_name after_query header before_sleep hist.

(** The log of the cell when the call after the snapshots [hist] raised. *)
Definition trace_raised (job_name : string) (hist : list response_t) : list event :=
  Poll.trace_raised operation job_name after_query header before_sleep hist.

Definition rhythm (job_name : string) (n : nat) : list event :=
  Poll.rhythm operation job_name n.

End AutoML.

(** ** The R hyperparameter-tuning watcher

    [[
    status <- sm$describe_hyper_parameter_tuning_job(
        HyperParameterTuningJobName=tuner$latest_tuning_job$job_name)

    message(cat('Hyperparameter Tuning Job Name: ', job_name,'\n'))
    while (status$HyperParameterTuningJobStatus != "Completed") {
        message(cat('Hyperparameter Tuning Job Status: ', status$HyperParameterTuningJobStatus,'\n'))
        message(cat('Succeeded Models:', status$ObjectiveStatusCounters$Succeeded, ' InProgress Models: ', status$ObjectiveStatusCounters$Pending, ' Failed Models: ', status$ObjectiveStatusCounters$Failed, '\n'))
        Sys.sleep(60)
        status <- sm$describe_hyper_parameter_tuning_job(
        HyperParameterTuningJobName=tuner$latest_tuning_job$job_name)
    }
    ]] *)
Module Tuning.

Record counters_t : Type := Counters {
  Succeeded : Z;
  Pending : Z;
  Failed : Z
}.

(** The fields of the describe_hyper_parameter_tuning_job response that
    the cell reads. *)
Record response_t : Type := Response {
  HyperParameterTuningJobStatus : string;
  ObjectiveStatusCounters : counters_t
}.

Definition describe_hyper_parameter_tuning_job
  (svc : service response_t) (name : string) : M response_t :=
  invoke svc "describe_hyper_parameter_tuning_job" name.

(** The newline character of '\n'. *)
Definition nl : string := String (Ascii.ascii_of_nat 10) EmptyString.

(** [cat] writes its arguments to stdout and returns NULL (here [tt]). *)
Definition cat (args : list rvalue) : M unit := emit (Cat args).

(** [message] of NULL writes an empty line to stderr. *)
Definition message (null : unit) : M unit := emit (Message EmptyString).

(** status$HyperParameterTuningJobStatus != "Completed" *)
Definition loop_condition (status : response_t) : bool :=
  negb (HyperParameterTuningJobStatus status =? "Completed").

Section Cell.
Variable svc : service response_t.
Variable latest_tuning_job_name : string.  (* tuner$latest_tuning_job$job_name *)
Variable job_name : string.

Fixpoint while_loop (fuel : nat) (status : response_t) : M response_t :=
  if loop_condition status then
    match fuel with
    | O => running
    | Datatypes.S fuel' =>
        null <- cat [RStr "Hyperparameter Tuning Job Status: ";
                     RStr (HyperParameterTuningJobStatus status);
                     RStr nl] ;;
        message null ;;
        null <- cat [RStr "Succeeded Models:";
                     RInt (Succeeded (ObjectiveStatusCounters status));
                     RStr " InProgress Models: ";
                     RInt (Pending (ObjectiveStatusCounters status));
                     RStr " Failed Models: ";
                     RInt (Failed (ObjectiveStatusCounters status));
                     RStr nl] ;;
        message null ;;
        sleep 60 ;;
        status <- describe_hyper_parameter_tuning_job svc latest_tuning_job_name ;;
        while_loop fuel' status
    end
  else ret status.

Definition watch (fuel : nat) : M response_t :=
  status <- describe_hyper_parameter_tuning_job svc latest_tuning_job_name ;;
  null <- cat [RStr "Hyperparameter Tuning Job Name: "; RStr job_name; RStr nl] ;;
  message null ;;
  while_loop fuel status.
End Cell.

(** The cell as an instance of the common shape: the loop exits when the
    condition of the [while] is false; the job name is written once
    before the loop, and the status and the counters at the top of every
    iteration. *)
Definition stop (r : response_t) : bool := negb (loop_condition r).

Definition after_query (r : response_t) : list event := [].

Definition header (job_name : string) : list event :=
  [Cat [RStr "Hyperparameter Tuning Job Name: "; RStr job_name; RStr nl];
   Message EmptyString].

Definition before_sleep (r : response_t) : list event :=
  [Cat [RStr "Hyperparameter Tuning Job Status: ";
        RStr (HyperParameterTuningJobStatus r);
        RStr nl];
   Message EmptyString;
   Cat [RStr "Succeeded Models:";
        RInt (Succeeded (ObjectiveStatusCounters r));
        RStr " InProgress Models: ";
        RInt (Pending (ObjectiveStatusCounters r));
        RStr " Failed Models: ";
        RInt (Failed (ObjectiveStatusCounters r));
        RStr nl];
   Message EmptyString].

(** The primary status of a snapshot. *)
Definition primary (r : response_t) : string := HyperParameterTuningJobStatus r.

(** What the [while] decides on a snapshot. *)
Definition continues (r : response_t) : Prop := loop_condition r = true.

Definition exits (r : response_t) : Prop := loop_condition r = false.

(** The cell run from the initial world, with a bound on the iterations. *)
Definition run_cell (svc : service response_t)
  (latest_tuning_job_name job_name : string) (fuel : nat)
  : outcome response_t * world :=
  watch svc latest_tuning_job_name job_name fuel w0.

Definition operation : string := "describe_hyper_parameter_tuning_job".

(** The log of the cell after it fetched the snapshots [hist]. *)
Definition trace (latest_tuning_job_name job_name : string)
  (hist : list response_t) : list event :=
  Poll.trace operation latest_tuning_job_name after_query (header job_name)
  before_sleep hist.

(** The log of the cell when the call after the snapshots [hist] raised. *)
Definition trace_raised (latest_tuning_job_name job_name : string)
  (hist : list response_t) : list event :=
  Poll.trace_raised operation latest_tuning_job_name after_query (header job_name)
  before_sleep hist.

Definition rhythm (latest_tuning_job_name : string) (n : nat) : list event :=
  Poll.rhythm operation latest_tuning_job_name n.

End Tuning.

(** ** The vocabulary of the specification

    The specification calls a primary status terminal when the job will not
    change state any more: Completed, Failed or Stopped.  The other values
    of the enumeration, InProgress and Stopping, are not terminal. *)
Definition terminal_status (primary : string) : bool :=
  (primary =? "Completed") || (primary =? "Failed") || (primary =? "Stopped").

(** ** Services used in the examples *)

(** A service that answers the calls with the replies of a list, and
    with [default] once the list is used up. *)
Definition script {S} (l : list (reply S)) (default : reply S) : service S :=
  fun k => nth k l default.

Module Examples.

Definition py (status secondary : string) : AutoML.response_t :=
  AutoML.Response status secondary.

Definition no_counts : Tuning.counters_t := Tuning.Counters 0 0 0.

Definition r (status : string) : Tuning.response_t :=
  Tuning.Response status no_counts.

(** An AutoML job that is analysing, then tuning, then completed. *)
Definition py_completes : service AutoML.response_t :=
  script [Returned (py "InProgress" "AnalyzingData");
          Returned (py "InProgress" "ModelTuning")]
         (Returned (py "Completed" "Completed")).

Definition py_pre : list AutoML.response_t :=
  [py "InProgress" "AnalyzingData"; py "InProgress" "ModelTuning"].

Definition py_last : AutoML.response_t := py "Completed" "Completed".

(** An AutoML job that was stopped by its owner. *)
Definition py_stopped : service AutoML.response_t :=
  script [] (Returned (py "Stopped" "Stopped")).

(** An AutoML job that failed, reported by the secondary status too. *)
Definition py_failed : service AutoML.response_t :=
  script [] (Returned (py "Failed" "Failed")).

(** An AutoML job whose primary status is Failed while the secondary
    status names the step that went wrong. *)
Definition py_failed_step : service AutoML.response_t :=
  script [] (Returned (py "Failed" "ExplainabilityError")).

(** An AutoML job still in progress whose secondary status is Failed. *)
Definition py_secondary_failed : service AutoML.response_t :=
  script [] (Returned (py "InProgress" "Failed")).

(** An AutoML client whose second call raises. *)
Definition py_raises : service AutoML.response_t :=
  script [Returned (py "InProgress" "AnalyzingData")] (Raised "EndpointConnectionError").

(** A tuning job that is in progress twice, then completed. *)
Definition r_completes : service Tuning.response_t :=
  script [Returned (Tuning.Response "InProgress" (Tuning.Counters 0 2 0));
          Returned (Tuning.Response "InProgress" (Tuning.Counters 1 1 0))]
         (Returned (Tuning.Response "Completed" (Tuning.Counters 2 0 0))).

Definition r_pre : list Tuning.response_t :=
  [Tuning.Response "InProgress" (Tuning.Counters 0 2 0);
   Tuning.Response "InProgress" (Tuning.Counters 1 1 0)].

Definition r_last : Tuning.response_t :=
  Tuning.Response "Completed" (Tuning.Counters 2 0 0).

(** A tuning job that has failed, and one that was stopped. *)
Definition failed_tuning : Tuning.response_t :=
  Tuning.Response "Failed" (Tuning.Counters 0 0 2).

Definition r_failed : service Tuning.response_t :=
  script [] (Returned failed_tuning).

Definition r_stopped : service Tuning.response_t :=
  script [] (Returned (r "Stopped")).

(** Jobs that are already completed at the first call. *)
Definition py_done : service AutoML.response_t :=
  script [] (Returned (py "Completed" "Completed")).

Definition r_done : service Tuning.response_t :=
  script [] (Returned (r "Completed")).

(** An AutoML job reported Stopped, then running again, then completed. *)
Definition py_resumes : service AutoML.response_t :=
  script [Returned (py "Stopped" "Stopped");
          Returned (py "InProgress" "ModelTuning")]
         (Returned (py "Completed" "Completed")).

(** A tuning job reported Failed, then in progress, then completed. *)
Definition r_resumes : service Tuning.response_t :=
  script [Returned failed_tuning; Returned (r "InProgress")]
         (Returned (r "Completed")).

(** A tuning client whose second call raises. *)
Definition r_raises : service Tuning.response_t :=
  script [Returned (r "InProgress")] (Raised "EndpointConnectionError").

End Examples.

(** ** More observations on a log *)

(** The seconds spent in suspensions. *)
Fixpoint slept (l : list event) : nat :=
  match l with
  | [] => 0
  | Sleep seconds :: l' => seconds + slept l'
  | _ :: l' => slept l'
  end.


(** ** Time stamps in job names

    The Python cell names its job with [strftime("%m-%d-%H-%M", gmtime())],
    the R notebook names its tuning job and its model with
    [format(Sys.time(), '%H-%M-%S')].  Both formats are made of the
    two-digit, zero-padded fields of a broken-down time and of literal
    characters. *)
Module Clock.

Record struct_time : Type := StructTime {
  tm_year : nat;
  tm_mon : nat;     (* 1 .. 12 *)
  tm_mday : nat;    (* 1 .. 31 *)
  tm_hour : nat;    (* 0 .. 23 *)
  tm_min : nat;     (* 0 .. 59 *)
  tm_sec : nat      (* 0 .. 61 *)
}.

(** The fields of a time as the clock gives them. *)
Definition in_range (t : struct_time) : Prop :=
  1 <= tm_mon t <= 12 /\ 1 <= tm_mday t <= 31 /\
  tm_hour t <= 23 /\ tm_min t <= 59 /\ tm_sec t <= 61.

Definition digit (n : nat) : Ascii.ascii := Ascii.ascii_of_nat (48 + n).

(** A field below 100 as two decimal digits. *)
Definition two_digits (n : nat) : string :=
  String (digit (n / 10)) (String (digit (n mod 10)) EmptyString).

(** The directives used by the notebooks.  Other directives are not
    modelled: they are copied unchanged. *)
Definition directive (c : Ascii.ascii) (t : struct_time) : string :=
  if Ascii.eqb c "m"%char then two_digits (tm_mon t)
  else if Ascii.eqb c "d"%char then two_digits (tm_mday t)
  else if Ascii.eqb c "H"%char then two_digits (tm_hour t)
  else if Ascii.eqb c "M"%char then two_digits (tm_min t)
  else if Ascii.eqb c "S"%char then two_digits (tm_sec t)
  else String "%"%char (String c EmptyString).

Fixpoint strftime (format : string) (t : struct_time) : string :=
  match format with
  | EmptyString => EmptyString
  | String c rest =>
      if Ascii.eqb c "%"%char then
        match rest with
        | String d rest' => directive d t ++ strftime rest' t
        | EmptyString => String c EmptyString
        end
      else String c (strftime rest t)
  end.

(** R's [paste(..., sep = sep)] on character strings. *)
Definition paste (args : list string) (sep : string) : string :=
  String.concat sep args.

End Clock.

(** ** The whole Python cell: naming and creating the job, then polling

    [[
    job_name = "autopilot-parquet-" + strftime("%m-%d-%H-%M", gmtime())
    print("AutoML job:", job_name)

    create_auto_ml_job_params = {
        "AutoMLJobConfig": {"CompletionCriteria": {"MaxCandidates": 50}},
        "AutoMLJobName": job_name,
        "InputDataConfig": [
            {
                "ContentType": "x-application/vnd.amazon+parquet",
                "CompressionType": "None",
                "DataSource": {
                    "S3DataSource": {
                        "S3DataType": "S3Prefix",
                        "S3Uri": f"s3://{bucket}/{prefix}/abalone.parquet",
                    }
                },
                "TargetAttributeName": "Rings",
            }
        ],
        "OutputDataConfig": {"S3OutputPath": f"s3://{bucket}/{prefix}/output"},
        "RoleArn": role,
    }

    client = boto3.client("sagemaker", region_name=region)
    client.create_auto_ml_job( **create_auto_ml_job_params)
    ]]
    followed by the polling of [AutoML.watch]. *)
Module AutoMLCell.

Record completion_criteria : Type := CompletionCriteria { MaxCandidates : Z }.

Record auto_ml_job_config : Type :=
  AutoMLJobConfigOf { CompletionCriteriaOf : completion_criteria }.

Record s3_data_source : Type := S3DataSource { S3DataType : string; S3Uri : string }.

Record data_source : Type := DataSource { S3DataSourceOf : s3_data_source }.

Record channel : Type := Channel {
  ContentType : string;
  CompressionType : string;
  DataSourceOf : data_source;
  TargetAttributeName : string
}.

Record output_data_config : Type := OutputDataConfig { S3OutputPath : string }.

Record request : Type := Request {
  AutoMLJobConfig : auto_ml_job_config;
  AutoMLJobName : string;
  InputDataConfig : list channel;
  OutputDataConfigOf : output_data_config;
  RoleArn : string
}.

(** "autopilot-parquet-" + strftime("%m-%d-%H-%M", gmtime()) *)
Definition job_name (gmtime : Clock.struct_time) : string :=
  "autopilot-parquet-" ++ Clock.strftime "%m-%d-%H-%M" gmtime.

Definition create_auto_ml_job_params
  (job_name bucket prefix role : string) : request :=
  Request
    (AutoMLJobConfigOf (CompletionCriteria 50))
    job_name
    [Channel "x-application/vnd.amazon+parquet" "None"
       (DataSource
          (S3DataSource "S3Prefix"
             ("s3://" ++ bucket ++ "/" ++ prefix ++ "/abalone.parquet")))
       "Rings"]
    (OutputDataConfig ("s3://" ++ bucket ++ "/" ++ prefix ++ "/output"))
    role.

(** What the cell does, in order: output, the creation request, and the
    effects of the polling. *)
Inductive cell_event : Type :=
| Stdout (line : string)
| CreateAutoMLJob (params : request)
| Polling (e : event).

(** The cell.  [gmtime] is the time read from the clock, [create] tells
    whether the creation request raises, [svc] answers the status calls. *)
Definition cell (gmtime : Clock.struct_time) (role bucket prefix : string)
  (create : request -> option exn) (svc : service AutoML.response_t) (fuel : nat)
  : outcome AutoML.vars * list cell_event :=
  let job_name := job_name gmtime in
  let params := create_auto_ml_job_params job_name bucket prefix role in
  let before := [Stdout ("AutoML job: " ++ job_name); CreateAutoMLJob params] in
  match create params with
  | Some e => (Exn e, before)
  | None =>
      let (o, w) := AutoML.run_cell svc job_name fuel in
      (o, before ++ map Polling (log w))
  end.

End AutoMLCell.

(** ** The names and paths built by the R notebook

    [[
    s3_output <- paste0('s3://', bucket, '/output')
    job_name <- paste('sagemaker-tune-xgboost', format(Sys.time(), '%H-%M-%S'), sep = '-')
    model_name <- paste('sagemaker-model-xgboost', format(Sys.time(), '%H-%M-%S'), sep = '-')
    s3_test_url <- paste('s3:/',bucket,'data','abalone_test.csv', sep = '/')
    output_path <- paste('s3:/',bucket,'output/batch_transform_output',job_name, sep = '/')
    paste(output_path,"abalone_test.csv.out",sep = '/')
    ]] *)
Module TuningNames.

Definition s3_output (bucket : string) : string := "s3://" ++ bucket ++ "/output".

Definition job_name (sys_time : Clock.struct_time) : string :=
  Clock.paste ["sagemaker-tune-xgboost"; Clock.strftime "%H-%M-%S" sys_time] "-".

Definition model_name (sys_time : Clock.struct_time) : string :=
  Clock.paste ["sagemaker-model-xgboost"; Clock.strftime "%H-%M-%S" sys_time] "-".

Definition s3_test_url (bucket : string) : string :=
  Clock.paste ["s3:/"; bucket; "data"; "abalone_test.csv"] "/".

Definition output_path (bucket job_name : string) : string :=
  Clock.paste ["s3:/"; bucket; "output/batch_transform_output"; job_name] "/".

(** The object downloaded after the batch transform. *)
Definition batch_output (output_path : string) : string :=
  Clock.paste [output_path; "abalone_test.csv.out"] "/".

End TuningNames.

(** ** The data preparation of the R notebook *)

(** One-hot encoding of the sex column:
    [[
    mutate(female = as.integer(ifelse(sex == 'F', 1, 0)),
           male = as.integer(ifelse(sex == 'M', 1, 0)),
           infant = as.integer(ifelse(sex == 'I', 1, 0)))
    ]]
    A value of R is modelled with [None] for NA. *)
Module OneHot.

(** [x == y] on a factor and a string: NA when [x] is NA. *)
Definition equals (x : option string) (y : string) : option bool :=
  match x with
  | None => None
  | Some s => Some (s =? y)
  end.

(** [ifelse(test, yes, no)] on one element: NA when the test is NA. *)
Definition ifelse {A} (test : option bool) (yes no : A) : option A :=
  match test with
  | None => None
  | Some true => Some yes
  | Some false => Some no
  end.

(** [as.integer] on a double: the fraction is dropped, towards zero; a
    value out of the range of R's integers becomes NA. *)
Definition as_integer (x : option QArith_base.Q) : option Z :=
  match x with
  | None => None
  | Some q =>
      let z := Z.quot (QArith_base.Qnum q) (Z.pos (QArith_base.Qden q)) in
      if (Z.abs z <=? 2147483647)%Z then Some z else None
  end.

Record encoded : Type := Encoded {
  female : option Z;
  male : option Z;
  infant : option Z
}.

Definition mutate (sex : option string) : encoded :=
  Encoded
    (as_integer (ifelse (equals sex "F") (QArith_base.inject_Z 1) (QArith_base.inject_Z 0)))
    (as_integer (ifelse (equals sex "M") (QArith_base.inject_Z 1) (QArith_base.inject_Z 0)))
    (as_integer (ifelse (equals sex "I") (QArith_base.inject_Z 1) (QArith_base.inject_Z 0))).

End OneHot.

(** Splitting into training, test and validation data:
    [[
    abalone_train <- abalone %>%
      sample_frac(size = 0.7)
    abalone <- anti_join(abalone, abalone_train)
    abalone_test <- abalone %>%
      sample_frac(size = 0.5)
    abalone_valid <- anti_join(abalone, abalone_test)
    ]]
    The two random draws are left open: [sample_70] and [sample_50] are
    whatever [sample_frac] drew.  [same_row] tells whether two rows agree
    on every column, which is how [anti_join] matches rows of two frames
    with the same columns. *)
Module Split.
Section Split.
Context {row : Type}.
Variable same_row : row -> row -> bool.
Variables sample_70 sample_50 : list row -> list row.

(** The rows of [x] that match no row of [y], in the order of [x]. *)
Definition anti_join (x y : list row) : list row :=
  filter (fun r => negb (existsb (same_row r) y)) x.

Record parts : Type := Parts {
  abalone_train : list row;
  abalone_test : list row;
  abalone_valid : list row
}.

Definition split (abalone : list row) : parts :=
  let abalone_train := sample_70 abalone in
  let abalone := anti_join abalone abalone_train in
  let abalone_test := sample_50 abalone in
  let abalone_valid := anti_join abalone abalone_test in
  Parts abalone_train abalone_test abalone_valid.

(** Some row of [l] matches [r]. *)
Definition matched (r : row) (l : list row) : Prop :=
  exists r', In r' l /\ same_row r r' = true.
End Split.
End Split.

(** * Facts *)

(** ** The monad *)

Lemma world_eta (w : world) : World (calls w) (log w) = w.
Proof. destruct w; reflexivity. Qed.

Lemma emits_run (l : list event) (w : world) :
  Poll.emits l w = (Val tt, World (calls w) (log w ++ l)).
Proof.
  revert w; induction l as [|e l IH]; intros w; cbn [Poll.emits].
  - unfold ret; now rewrite app_nil_r, world_eta.
  - unfold bind, emit; rewrite IH; cbn [calls log].
    now rewrite <- app_assoc.
Qed.

(** ** Lists *)

Lemma last_cons {A} (l : list A) (a d : A) : last (a :: l) d = last l a.
Proof.
  revert a d; induction l as [|b l IH]; intros a d; [reflexivity|].
  change (last (a :: b :: l) d) with (last (b :: l) d).
  now rewrite !IH.
Qed.

Lemma Forall_removelast {A} (P : A -> Prop) (l : list A) :
  Forall P l -> Forall P (removelast l).
Proof.
  induction 1 as [|a l Ha Hl IH]; [constructor|].
  destruct l as [|b l]; [constructor|].
  change (removelast (a :: b :: l)) with (a :: removelast (b :: l)).
  now constructor.
Qed.

Lemma Forall_last {A} (P : A -> Prop) (l : list A) (a : A) :
  Forall P (a :: l) -> P (last l a).
Proof.
  revert a; induction l as [|b l IH]; intros a H.
  - now inversion H.
  - rewrite last_cons. apply IH. now inversion H.
Qed.

(** ** One turn of the loop *)

Section PollSteps.
Context {S : Type}.
Variable svc : service S.
Variables operation job : string.
Variable stop : S -> bool.
Variable after_query : S -> list event.
Variable header : list event.
Variable before_sleep : S -> list event.

Local Abbreviation loop := (Poll.loop svc operation job stop after_query before_sleep).
Local Abbreviation run := (Poll.run svc operation job stop after_query header before_sleep).
Local Abbreviation iterations := (Poll.iterations operation job after_query before_sleep).
Local Abbreviation trace := (Poll.trace operation job after_query header before_sleep).
Local Abbreviation trace_raised :=
  (Poll.trace_raised operation job after_query header before_sleep).
Local Abbreviation answers := (Poll.answers svc).
Local Abbreviation answers_from := (Poll.answers_from svc).
Local Abbreviation going := (Poll.going stop).

Lemma loop_stop fuel cur w :
  stop cur = true -> loop fuel cur w = (Val cur, w).
Proof. intros H; destruct fuel; cbn [Poll.loop]; now rewrite H. Qed.

Lemma loop_out cur w :
  stop cur = false -> loop 0 cur w = (Running, w).
Proof. intros H; cbn [Poll.loop]; now rewrite H. Qed.

Lemma loop_step fuel cur w s :
  stop cur = false -> svc (calls w) = Returned s ->
  loop (Datatypes.S fuel) cur w =
  loop fuel s
    (World (Datatypes.S (calls w))
       (log w ++ before_sleep cur ++ [Sleep 60; Query operation job] ++ after_query s)).
Proof.
  intros Hgo Hs; cbn [Poll.loop]; rewrite Hgo.
  unfold bind at 1; rewrite emits_run.
  unfold bind at 1, sleep, emit; cbn [calls log].
  unfold bind at 1, invoke; cbn [calls log]; rewrite Hs.
  unfold bind at 1; rewrite emits_run; cbn [calls log].
  do 2 f_equal. rewrite <- !app_assoc. reflexivity.
Qed.

Lemma loop_raise fuel cur w e :
  stop cur = false -> svc (calls w) = Raised e ->
  loop (Datatypes.S fuel) cur w =
  (Exn e,
   World (Datatypes.S (calls w))
     (log w ++ before_sleep cur ++ [Sleep 60; Query operation job])).
Proof.
  intros Hgo He; cbn [Poll.loop]; rewrite Hgo.
  unfold bind at 1; rewrite emits_run.
  unfold bind at 1, sleep, emit; cbn [calls log].
  unfold bind at 1, invoke; cbn [calls log]; rewrite He.
  do 2 f_equal. rewrite <- !app_assoc. reflexivity.
Qed.

Lemma run_first fuel s :
  svc 0 = Returned s ->
  run fuel w0 = loop fuel s (World 1 (Query operation job :: after_query s ++ header)).
Proof.
  intros Hs; unfold Poll.run.
  unfold bind at 1, invoke; cbn [calls log w0]; rewrite Hs.
  unfold bind at 1; rewrite emits_run; cbn [calls log].
  unfold bind at 1; rewrite emits_run; cbn [calls log].
  reflexivity.
Qed.

Lemma run_first_raise fuel e :
  svc 0 = Raised e ->
  run fuel w0 = (Exn e, World 1 [Query operation job]).
Proof.
  intros He; unfold Poll.run.
  unfold bind at 1, invoke; cbn [calls log w0]; now rewrite He.
Qed.

(** ** Several turns, and whole runs *)

Lemma loop_steps l : forall fuel cur w,
  answers_from (calls w) l ->
  Forall going (removelast (cur :: l)) ->
  loop (length l + fuel) cur w =
  loop fuel (last l cur) (World (calls w + length l) (log w ++ iterations cur l)).
Proof.
  induction l as [|s l IH]; intros fuel cur w Hsvc Hgo.
  - cbn [length Nat.add last Poll.iterations].
    now rewrite Nat.add_0_r, app_nil_r, world_eta.
  - change (removelast (cur :: s :: l)) with (cur :: removelast (s :: l)) in Hgo.
    inversion Hgo as [|? ? Hcur Hrest]; subst.
    cbn [length Nat.add].
    rewrite (loop_step _ _ _ s Hcur).
    2:{ specialize (Hsvc 0 s eq_refl). now rewrite Nat.add_0_r in Hsvc. }
    rewrite IH; cbn [calls log]; trivial.
    + rewrite last_cons. cbn [Poll.iterations].
      rewrite <- !app_assoc, Nat.add_succ_r. reflexivity.
    + intros i x Hx. specialize (Hsvc (Datatypes.S i) x Hx).
      now rewrite Nat.add_succ_r in Hsvc.
Qed.

Lemma answers_tail s0 l : answers (s0 :: l) -> answers_from 1 l.
Proof. intros H i x Hx. apply (H (Datatypes.S i) x Hx). Qed.

Lemma answers_snoc l s :
  answers l -> svc (length l) = Returned s -> answers (l ++ [s]).
Proof.
  intros Hl Hs i x Hx.
  destruct (Nat.lt_ge_cases i (length l)) as [Hi|Hi].
  - rewrite nth_error_app1 in Hx by exact Hi. now apply Hl.
  - rewrite nth_error_app2 in Hx by exact Hi.
    destruct (i - length l) as [|j] eqn:E; cbn in Hx.
    + injection Hx as <-. replace i with (length l) by lia. exact Hs.
    + destruct j; discriminate.
Qed.

Lemma answers_init l s : answers (l ++ [s]) -> answers l.
Proof.
  intros H i x Hx. apply H. rewrite nth_error_app1; trivial.
  apply nth_error_Some. congruence.
Qed.

Lemma answers_at l s : answers (l ++ [s]) -> svc (length l) = Returned s.
Proof.
  intros H. apply H. rewrite nth_error_app2 by lia.
  now rewrite Nat.sub_diag.
Qed.

(** A run that meets a snapshot passing the exit test returns it. *)
Lemma run_done pre sn fuel :
  answers (pre ++ [sn]) -> Forall going pre -> stop sn = true ->
  length pre <= fuel ->
  run fuel w0 = (Val sn, World (Datatypes.S (length pre)) (trace (pre ++ [sn]))).
Proof.
  intros Hsvc Hgo Hstop Hfuel.
  destruct pre as [|s0 l].
  - rewrite (run_first _ sn) by (apply (Hsvc 0); reflexivity).
    rewrite loop_stop by exact Hstop.
    cbn [app Poll.trace Poll.iterations length]. now rewrite app_nil_r.
  - cbn [app] in *. rewrite (run_first _ s0) by (apply (Hsvc 0); reflexivity).
    cbn [length] in Hfuel.
    replace fuel with (length (l ++ [sn]) + (fuel - length (l ++ [sn])))
      by (rewrite length_app; cbn [length]; lia).
    rewrite loop_steps; cbn [calls log].
    + rewrite last_last, loop_stop by exact Hstop.
      cbn [Poll.trace length]. rewrite length_app. cbn [length].
      rewrite <- app_comm_cons, <- app_assoc. do 2 f_equal. lia.
    + now apply answers_tail with s0.
    + change (s0 :: l ++ [sn]) with ((s0 :: l) ++ [sn]).
      now rewrite removelast_last.
Qed.

(** A run whose next call raises ends with that exception. *)
Lemma run_raised pre e fuel :
  answers pre -> Forall going pre -> svc (length pre) = Raised e ->
  length pre <= fuel ->
  run fuel w0 = (Exn e, World (Datatypes.S (length pre)) (trace_raised pre)).
Proof.
  intros Hsvc Hgo He Hfuel.
  destruct pre as [|s0 l].
  - now rewrite (run_first_raise _ e).
  - rewrite (run_first _ s0) by (apply (Hsvc 0); reflexivity).
    cbn [length] in *.
    replace fuel with (length l + Datatypes.S (fuel - Datatypes.S (length l))) by lia.
    rewrite loop_steps; cbn [calls log].
    + rewrite (loop_raise _ _ _ e); cbn [calls log].
      * cbn [Poll.trace_raised Poll.trace Nat.add].
        rewrite <- !app_comm_cons, <- !app_assoc. reflexivity.
      * now apply Forall_last.
      * exact He.
    + now apply answers_tail with s0.
    + now apply Forall_removelast.
Qed.

(** A run that has only met snapshots failing the exit test is still going. *)
Lemma run_running hist fuel :
  answers hist -> Forall going hist -> length hist = Datatypes.S fuel ->
  run fuel w0 = (Running, World (Datatypes.S fuel) (trace hist)).
Proof.
  intros Hsvc Hgo Hlen.
  destruct hist as [|s0 l]; [discriminate|].
  rewrite (run_first _ s0) by (apply (Hsvc 0); reflexivity).
  cbn [length] in Hlen. injection Hlen as Hlen.
  replace fuel with (length l + 0) at 1 by lia.
  rewrite loop_steps; cbn [calls log].
  - rewrite loop_out by (now apply Forall_last).
    cbn [Poll.trace Nat.add]. rewrite Hlen.
    now rewrite <- !app_comm_cons, <- !app_assoc.
  - now apply answers_tail with s0.
  - now apply Forall_removelast.
Qed.

(** How far a service lets the loop go within a bound on the iterations. *)
Lemma service_cases fuel :
  exists hist, answers hist /\ Forall going hist /\
    ((length hist <= fuel /\
      exists sn, svc (length hist) = Returned sn /\ stop sn = true)
     \/ (length hist <= fuel /\ exists e, svc (length hist) = Raised e)
     \/ length hist = Datatypes.S fuel).
Proof.
  assert (Hnext : forall hist n, answers hist -> Forall going hist -> length hist = n ->
    exists hist', answers hist' /\ Forall going hist' /\
      ((length hist' <= n /\
        exists sn, svc (length hist') = Returned sn /\ stop sn = true)
       \/ (length hist' <= n /\ exists e, svc (length hist') = Raised e)
       \/ length hist' = Datatypes.S n)).
  { intros hist n Hsvc Hgo Hlen.
    destruct (svc (length hist)) as [s|e] eqn:E.
    - destruct (stop s) eqn:Es.
      + exists hist; repeat split; trivial. left; split; [lia|]. now exists s.
      + exists (hist ++ [s]); repeat split.
        * now apply answers_snoc.
        * apply Forall_app; split; trivial. now constructor.
        * right; right. rewrite length_app; cbn [length]; lia.
    - exists hist; repeat split; trivial. right; left; split; [lia|]. now exists e. }
  induction fuel as [|fuel IH].
  - apply (Hnext [] 0); trivial. intros [|i] x Hx; discriminate.
  - destruct IH as (hist & Hsvc & Hgo & [(Hl & H)|[(Hl & H)|Hl]]).
    + exists hist; repeat split; trivial. left; split; [lia|exact H].
    + exists hist; repeat split; trivial. right; left; split; [lia|exact H].
    + now apply (Hnext hist).
Qed.

(** Every run is of one of the three kinds above. *)
Lemma run_cases fuel :
  exists hist, answers hist /\ Forall going hist /\
    ((exists sn, length hist <= fuel /\
        svc (length hist) = Returned sn /\ stop sn = true /\
        run fuel w0 =
        (Val sn, World (Datatypes.S (length hist)) (trace (hist ++ [sn]))))
     \/ (exists e, length hist <= fuel /\ svc (length hist) = Raised e /\
        run fuel w0 = (Exn e, World (Datatypes.S (length hist)) (trace_raised hist)))
     \/ (length hist = Datatypes.S fuel /\
        run fuel w0 = (Running, World (Datatypes.S fuel) (trace hist)))).
Proof.
  destruct (service_cases fuel)
    as (hist & Hsvc & Hgo & [(Hl & sn & Hs & Hstop)|[(Hl & e & He)|Hl]]);
    exists hist; repeat split; trivial.
  - left. exists sn; repeat split; trivial.
    apply run_done; trivial. now apply answers_snoc.
  - right; left. exists e; repeat split; trivial. now apply run_raised.
  - right; right. split; trivial. now apply run_running.
Qed.

(** ** Consequences for every run *)

(** The snapshots met before the exit test first holds come before any
    snapshot that passes it. *)
Lemma going_before hist k s :
  answers hist -> Forall going hist -> svc k = Returned s -> stop s = true ->
  length hist <= k.
Proof.
  intros Hsvc Hgo Hk Hstop.
  destruct (Nat.le_gt_cases (length hist) k) as [H|H]; trivial.
  destruct (nth_error hist k) as [x|] eqn:E.
  - pose proof (Hsvc k x E) as Hx. rewrite Hk in Hx. injection Hx as <-.
    apply nth_error_In in E. rewrite Forall_forall in Hgo.
    specialize (Hgo s E). unfold Poll.going in Hgo. congruence.
  - apply nth_error_None in E. lia.
Qed.

Lemma run_calls fuel :
  1 <= calls (snd (run fuel w0)) <= Datatypes.S fuel.
Proof.
  destruct (run_cases fuel)
    as (hist & Hsvc & Hgo &
        [(sn & Hl & Hs & Hstop & ->)|[(e & Hl & He & ->)|(Hl & ->)]]);
    cbn [snd calls]; lia.
Qed.

(** No call is made after a snapshot that passes the exit test. *)
Lemma run_calls_le fuel k s :
  svc k = Returned s -> stop s = true ->
  calls (snd (run fuel w0)) <= Datatypes.S k.
Proof.
  intros Hk Hstop.
  destruct (run_cases fuel)
    as (hist & Hsvc & Hgo &
        [(sn & Hl & Hs & Hsn & ->)|[(e & Hl & He & ->)|(Hl & ->)]]);
    cbn [snd calls];
    pose proof (going_before hist k s Hsvc Hgo Hk Hstop); lia.
Qed.

(** No call is made after a call that raised. *)
Lemma run_calls_le_raised fuel k e :
  svc k = Raised e -> calls (snd (run fuel w0)) <= Datatypes.S k.
Proof.
  intros Hk.
  assert (Hlen : forall hist, answers hist -> length hist <= k).
  { intros hist Hsvc.
    destruct (Nat.le_gt_cases (length hist) k) as [H|H]; trivial.
    destruct (nth_error hist k) as [x|] eqn:E.
    - pose proof (Hsvc k x E). congruence.
    - apply nth_error_None in E. lia. }
  destruct (run_cases fuel)
    as (hist & Hsvc & Hgo &
        [(sn & Hl & Hs & Hsn & ->)|[(e' & Hl & He & ->)|(Hl & ->)]]);
    cbn [snd calls]; pose proof (Hlen hist Hsvc); lia.
Qed.

(** A run returns only the first snapshot that passes the exit test. *)
Lemma run_val_inv fuel v w :
  run fuel w0 = (Val v, w) ->
  exists pre, answers (pre ++ [v]) /\ Forall going pre /\ stop v = true /\
    w = World (Datatypes.S (length pre)) (trace (pre ++ [v])).
Proof.
  intros Hrun.
  destruct (run_cases fuel)
    as (hist & Hsvc & Hgo &
        [(sn & Hl & Hs & Hsn & E)|[(e & Hl & He & E)|(Hl & E)]]);
    rewrite E in Hrun; try discriminate.
  injection Hrun as <- <-. exists hist; repeat split; trivial.
  now apply answers_snoc.
Qed.

(** A run ends with an exception only when its last call raised it. *)
Lemma run_exn_inv fuel e w :
  run fuel w0 = (Exn e, w) ->
  exists pre, answers pre /\ Forall going pre /\ svc (length pre) = Raised e /\
    w = World (Datatypes.S (length pre)) (trace_raised pre).
Proof.
  intros Hrun.
  destruct (run_cases fuel)
    as (hist & Hsvc & Hgo &
        [(sn & Hl & Hs & Hsn & E)|[(e' & Hl & He & E)|(Hl & E)]]);
    rewrite E in Hrun; try discriminate.
  injection Hrun as <- <-. now exists hist.
Qed.

(** With a service that never raises and never passes the exit test, the
    loop is still going after any number of iterations. *)
Lemma run_forever :
  (forall k, exists s, svc k = Returned s /\ stop s = false) ->
  forall fuel, exists hist,
    length hist = Datatypes.S fuel /\ answers hist /\ Forall going hist /\
    run fuel w0 = (Running, World (Datatypes.S fuel) (trace hist)).
Proof.
  intros Hall fuel.
  destruct (run_cases fuel)
    as (hist & Hsvc & Hgo &
        [(sn & Hl & Hs & Hsn & E)|[(e & Hl & He & E)|(Hl & E)]]).
  - destruct (Hall (length hist)) as (s & Hs' & Hgo'). congruence.
  - destruct (Hall (length hist)) as (s & Hs' & Hgo'). congruence.
  - now exists hist.
Qed.

(** Going on after snapshots that fail the exit test: one more call each. *)
Lemma run_goes_on hist fuel :
  answers hist -> Forall going hist -> length hist <= fuel ->
  Datatypes.S (length hist) <= calls (snd (run fuel w0)).
Proof.
  intros Hsvc Hgo Hfuel.
  destruct (run_cases fuel)
    as (h & Hsvc' & Hgo' &
        [(sn & Hl & Hs & Hsn & ->)|[(e & Hl & He & ->)|(Hl & ->)]]);
    cbn [snd calls]; try lia.
  - destruct (Nat.le_gt_cases (length hist) (length h)) as [H|H]; [lia|].
    destruct (nth_error hist (length h)) as [x|] eqn:E.
    + pose proof (Hsvc _ _ E) as Hx. rewrite Hs in Hx. injection Hx as <-.
      apply nth_error_In in E. rewrite Forall_forall in Hgo.
      specialize (Hgo _ E). unfold Poll.going in Hgo. congruence.
    + apply nth_error_None in E. lia.
  - destruct (Nat.le_gt_cases (length hist) (length h)) as [H|H]; [lia|].
    destruct (nth_error hist (length h)) as [x|] eqn:E.
    + pose proof (Hsvc _ _ E). congruence.
    + apply nth_error_None in E. lia.
Qed.

End PollSteps.

(** ** Calls and suspensions in a log *)

Lemma effects_app (a b : list event) : effects (a ++ b) = effects a ++ effects b.
Proof. apply filter_app. Qed.

Lemma queries_effects (l : list event) : queries (effects l) = queries l.
Proof.
  unfold queries, effects.
  induction l as [|[] l IH]; cbn; trivial; now rewrite IH.
Qed.

Lemma sleeps_effects (l : list event) : sleeps (effects l) = sleeps l.
Proof.
  unfold sleeps, effects.
  induction l as [|[] l IH]; cbn; trivial; now rewrite IH.
Qed.

Lemma concat_repeat_snoc {A} (x : list A) (n : nat) :
  concat (repeat x n) ++ x = concat (repeat x (Datatypes.S n)).
Proof.
  induction n as [|n IH]; cbn [repeat concat].
  - now rewrite app_nil_r.
  - rewrite <- app_assoc, IH. reflexivity.
Qed.

Lemma queries_rhythm op job n : queries (Poll.rhythm op job n) = Datatypes.S n.
Proof.
  unfold Poll.rhythm, queries. cbn [filter is_query length]. f_equal.
  induction n as [|n IH]; cbn; trivial. now rewrite IH.
Qed.

Lemma sleeps_rhythm op job n : sleeps (Poll.rhythm op job n) = n.
Proof.
  unfold Poll.rhythm, sleeps. cbn [filter is_sleep].
  induction n as [|n IH]; cbn; trivial. now rewrite IH.
Qed.

Section PollLog.
Context {S : Type}.
Variable svc : service S.
Variables operation job : string.
Variable stop : S -> bool.
Variable after_query : S -> list event.
Variable header : list event.
Variable before_sleep : S -> list event.

(** The output of the loop holds no call and no suspension. *)
Hypothesis quiet_after : forall s, effects (after_query s) = [].
Hypothesis quiet_header : effects header = [].
Hypothesis quiet_before : forall s, effects (before_sleep s) = [].

Local Abbreviation run := (Poll.run svc operation job stop after_query header before_sleep).
Local Abbreviation iterations := (Poll.iterations operation job after_query before_sleep).
Local Abbreviation trace := (Poll.trace operation job after_query header before_sleep).
Local Abbreviation trace_raised :=
  (Poll.trace_raised operation job after_query header before_sleep).
Local Abbreviation rhythm := (Poll.rhythm operation job).

Lemma effects_iterations l : forall cur,
  effects (iterations cur l) =
  concat (repeat [Sleep 60; Query operation job] (length l)).
Proof.
  induction l as [|s l IH]; intros cur; [reflexivity|].
  cbn [Poll.iterations length repeat concat].
  rewrite !effects_app, quiet_before, quiet_after, IH. reflexivity.
Qed.

Lemma effects_trace s0 l : effects (trace (s0 :: l)) = rhythm (length l).
Proof.
  unfold Poll.trace, Poll.rhythm.
  change (Query operation job :: after_query s0 ++ header ++ iterations s0 l)
    with ([Query operation job] ++ after_query s0 ++ header ++ iterations s0 l).
  rewrite !effects_app, quiet_after, quiet_header, effects_iterations.
  reflexivity.
Qed.

Lemma effects_trace_raised hist : effects (trace_raised hist) = rhythm (length hist).
Proof.
  destruct hist as [|s0 l]; [reflexivity|].
  unfold Poll.trace_raised.
  rewrite !effects_app, effects_trace, quiet_before.
  unfold Poll.rhythm. cbn [length app].
  change (effects [Sleep 60; Query operation job])
    with [Sleep 60; Query operation job].
  now rewrite concat_repeat_snoc.
Qed.

(** Every log of the loop is a call followed by pairs of one suspension
    of 60 seconds and one call, besides output. *)
Lemma run_effects fuel :
  effects (log (snd (run fuel w0))) = rhythm (calls (snd (run fuel w0)) - 1).
Proof.
  destruct (run_cases svc operation job stop after_query header before_sleep fuel)
    as (hist & Hsvc & Hgo &
        [(sn & Hl & Hs & Hsn & ->)|[(e & Hl & He & ->)|(Hl & ->)]]);
    cbn [snd calls log]; rewrite Nat.sub_succ, Nat.sub_0_r.
  - destruct hist as [|s0 l]; cbn [app]; rewrite effects_trace; f_equal.
    rewrite length_app; cbn [length]; lia.
  - apply effects_trace_raised.
  - destruct hist as [|s0 l]; [discriminate|].
    rewrite effects_trace. cbn [length] in Hl. now injection Hl as ->.
Qed.

Lemma run_queries fuel :
  queries (log (snd (run fuel w0))) = calls (snd (run fuel w0)).
Proof.
  rewrite <- queries_effects, run_effects, queries_rhythm.
  pose proof (run_calls svc operation job stop after_query header before_sleep fuel).
  lia.
Qed.

Lemma run_sleeps fuel :
  sleeps (log (snd (run fuel w0))) = calls (snd (run fuel w0)) - 1.
Proof. now rewrite <- sleeps_effects, run_effects, sleeps_rhythm. Qed.

Lemma queries_trace hist : queries (trace hist) = length hist.
Proof.
  destruct hist as [|s0 l]; [reflexivity|].
  now rewrite <- queries_effects, effects_trace, queries_rhythm.
Qed.

Lemma sleeps_trace hist : sleeps (trace hist) = length hist - 1.
Proof.
  destruct hist as [|s0 l]; [reflexivity|].
  rewrite <- sleeps_effects, effects_trace, sleeps_rhythm. cbn [length]. lia.
Qed.

Lemma queries_trace_raised hist :
  queries (trace_raised hist) = Datatypes.S (length hist).
Proof. now rewrite <- queries_effects, effects_trace_raised, queries_rhythm. Qed.

Lemma sleeps_trace_raised hist : sleeps (trace_raised hist) = length hist.
Proof. now rewrite <- sleeps_effects, effects_trace_raised, sleeps_rhythm. Qed.

End PollLog.

(** ** Output in a log *)

Section PollOutput.
Context {S : Type}.
Variables operation job : string.
Variable after_query : S -> list event.
Variable header : list event.
Variable before_sleep : S -> list event.

Local Abbreviation iterations := (Poll.iterations operation job after_query before_sleep).
Local Abbreviation trace := (Poll.trace operation job after_query header before_sleep).

Lemma iterations_after l : forall cur s,
  In s l -> incl (after_query s) (iterations cur l).
Proof.
  induction l as [|x l IH]; intros cur s Hin e He; [destruct Hin|].
  cbn [Poll.iterations]. destruct Hin as [->|Hin].
  - apply in_or_app; right. apply in_or_app; right. apply in_or_app; now left.
  - apply in_or_app; right. apply in_or_app; right. apply in_or_app; right.
    now apply (IH x s).
Qed.

Lemma iterations_before l : forall cur s,
  In s (removelast (cur :: l)) -> incl (before_sleep s) (iterations cur l).
Proof.
  induction l as [|x l IH]; intros cur s Hin e He; [destruct Hin|].
  change (removelast (cur :: x :: l)) with (cur :: removelast (x :: l)) in Hin.
  cbn [Poll.iterations]. destruct Hin as [->|Hin].
  - apply in_or_app; now left.
  - apply in_or_app; right. apply in_or_app; right. apply in_or_app; right.
    now apply (IH x s).
Qed.

(** The output written after a fetch is in the log for every snapshot. *)
Lemma trace_after hist s : In s hist -> incl (after_query s) (trace hist).
Proof.
  destruct hist as [|s0 l]; intros Hin e He; [destruct Hin|].
  cbn [Poll.trace]. right. destruct Hin as [->|Hin].
  - apply in_or_app; now left.
  - apply in_or_app; right. apply in_or_app; right.
    now apply (iterations_after l s0 s).
Qed.

(** The output written at the top of the loop body is in the log for every
    snapshot but the last. *)
Lemma trace_before pre sn s :
  In s pre -> incl (before_sleep s) (trace (pre ++ [sn])).
Proof.
  intros Hin e He.
  destruct pre as [|s0 l]; [destruct Hin|].
  cbn [app Poll.trace]. right.
  apply in_or_app; right. apply in_or_app; right.
  apply (iterations_before (l ++ [sn]) s0 s); trivial.
  change (s0 :: l ++ [sn]) with ((s0 :: l) ++ [sn]).
  now rewrite removelast_last.
Qed.

Lemma trace_header s0 l : incl header (trace (s0 :: l)).
Proof.
  intros e He. cbn [Poll.trace]. right.
  apply in_or_app; right. apply in_or_app; now left.
Qed.

End PollOutput.

(** ** The two cells run as instances of the common shape *)

Lemma automl_loop_shape svc job fuel : forall r w,
  AutoML.while_loop svc job fuel (AutoML.vars_of r) w =
  map_outcome AutoML.vars_of
    (Poll.loop svc "describe_auto_ml_job" job
       AutoML.stop AutoML.after_query AutoML.before_sleep fuel r w).
Proof.
  induction fuel as [|fuel IH]; intros r w;
    cbn [AutoML.while_loop Poll.loop]; unfold AutoML.stop;
    destruct (AutoML.loop_condition (AutoML.vars_of r)); cbn [negb];
    try reflexivity.
  unfold AutoML.before_sleep, AutoML.after_query; cbn [Poll.emits].
  unfold AutoML.describe_auto_ml_job, AutoML.print, bind, ret, sleep, emit, invoke;
    cbn [calls log].
  destruct (svc (calls w)) as [s|e]; [|reflexivity].
  apply IH.
Qed.

Lemma automl_run_shape svc job fuel :
  AutoML.run_cell svc job fuel =
  map_outcome AutoML.vars_of
    (Poll.run svc AutoML.operation job
       AutoML.stop AutoML.after_query AutoML.header AutoML.before_sleep fuel w0).
Proof.
  unfold AutoML.run_cell, AutoML.watch, Poll.run, AutoML.operation.
  unfold AutoML.header, AutoML.after_query; cbn [Poll.emits].
  unfold AutoML.describe_auto_ml_job, AutoML.print, bind, ret, emit, invoke;
    cbn [calls log w0].
  destruct (svc 0) as [s|e]; [|reflexivity].
  apply automl_loop_shape.
Qed.

Lemma tuning_loop_shape svc name fuel : forall r w,
  Tuning.while_loop svc name fuel r w =
  Poll.loop svc Tuning.operation name
    Tuning.stop Tuning.after_query Tuning.before_sleep fuel r w.
Proof.
  induction fuel as [|fuel IH]; intros r w;
    cbn [Tuning.while_loop Poll.loop]; unfold Tuning.stop;
    destruct (Tuning.loop_condition r); cbn [negb]; try reflexivity.
  unfold Tuning.before_sleep, Tuning.after_query, Tuning.operation;
    cbn [Poll.emits].
  unfold Tuning.describe_hyper_parameter_tuning_job, Tuning.cat, Tuning.message,
    bind, ret, sleep, emit, invoke; cbn [calls log].
  destruct (svc (calls w)) as [s|e]; [|reflexivity].
  apply IH.
Qed.

Lemma tuning_run_shape svc name job fuel :
  Tuning.run_cell svc name job fuel =
  Poll.run svc Tuning.operation name
    Tuning.stop Tuning.after_query (Tuning.header job) Tuning.before_sleep fuel w0.
Proof.
  unfold Tuning.run_cell, Tuning.watch, Poll.run, Tuning.operation.
  unfold Tuning.header, Tuning.after_query; cbn [Poll.emits].
  unfold Tuning.describe_hyper_parameter_tuning_job, Tuning.cat, Tuning.message,
    bind, ret, emit, invoke; cbn [calls log w0].
  destruct (svc 0) as [s|e]; [|reflexivity].
  apply tuning_loop_shape.
Qed.

(** ** The exit tests *)

Lemma automl_exit_test r :
  AutoML.exits r <->
  AutoML.AutoMLJobStatus r = "Completed" \/ AutoML.AutoMLJobSecondaryStatus r = "Failed".
Proof.
  unfold AutoML.exits, AutoML.loop_condition, AutoML.vars_of;
    cbn [AutoML.status AutoML.secondary_status].
  rewrite andb_false_iff, !negb_false_iff, !String.eqb_eq. tauto.
Qed.

Lemma automl_continue_test r :
  AutoML.continues r <->
  AutoML.AutoMLJobStatus r <> "Completed" /\ AutoML.AutoMLJobSecondaryStatus r <> "Failed".
Proof.
  unfold AutoML.continues, AutoML.loop_condition, AutoML.vars_of;
    cbn [AutoML.status AutoML.secondary_status].
  rewrite andb_true_iff, !negb_true_iff, !String.eqb_neq. tauto.
Qed.

Lemma tuning_exit_test r :
  Tuning.exits r <-> Tuning.HyperParameterTuningJobStatus r = "Completed".
Proof.
  unfold Tuning.exits, Tuning.loop_condition.
  now rewrite negb_false_iff, String.eqb_eq.
Qed.

Lemma tuning_continue_test r :
  Tuning.continues r <-> Tuning.HyperParameterTuningJobStatus r <> "Completed".
Proof.
  unfold Tuning.continues, Tuning.loop_condition.
  now rewrite negb_true_iff, String.eqb_neq.
Qed.

Lemma automl_going l :
  Forall AutoML.continues l -> Forall (Poll.going AutoML.stop) l.
Proof.
  apply Forall_impl. intros r H. unfold Poll.going, AutoML.stop.
  now rewrite H.
Qed.

Lemma automl_going_inv l :
  Forall (Poll.going AutoML.stop) l -> Forall AutoML.continues l.
Proof.
  apply Forall_impl. intros r H. unfold Poll.going, AutoML.stop in H.
  now apply negb_false_iff in H.
Qed.

Lemma automl_stop r : AutoML.exits r <-> AutoML.stop r = true.
Proof. unfold AutoML.stop, AutoML.exits. now rewrite negb_true_iff. Qed.

Lemma tuning_going l :
  Forall Tuning.continues l -> Forall (Poll.going Tuning.stop) l.
Proof.
  apply Forall_impl. intros r H. unfold Poll.going, Tuning.stop.
  now rewrite H.
Qed.

Lemma tuning_going_inv l :
  Forall (Poll.going Tuning.stop) l -> Forall Tuning.continues l.
Proof.
  apply Forall_impl. intros r H. unfold Poll.going, Tuning.stop in H.
  now apply negb_false_iff in H.
Qed.

Lemma tuning_stop r : Tuning.exits r <-> Tuning.stop r = true.
Proof. unfold Tuning.stop, Tuning.exits. now rewrite negb_true_iff. Qed.

(** A snapshot that the specification calls non-terminal keeps the R loop
    going; it keeps the Python loop going unless the secondary status is
    Failed. *)
Lemma tuning_nonterminal_continues r :
  terminal_status (Tuning.primary r) = false -> Tuning.continues r.
Proof.
  unfold terminal_status, Tuning.primary, Tuning.continues, Tuning.loop_condition.
  intros H. apply orb_false_iff in H as [H _]. apply orb_false_iff in H as [H _].
  now rewrite H.
Qed.

Lemma automl_nonterminal_continues r :
  terminal_status (AutoML.primary r) = false ->
  AutoML.AutoMLJobSecondaryStatus r <> "Failed" ->
  AutoML.continues r.
Proof.
  unfold terminal_status, AutoML.primary. intros H Hsec.
  apply orb_false_iff in H as [H _]. apply orb_false_iff in H as [H _].
  apply automl_continue_test. split; trivial. now apply String.eqb_neq.
Qed.

(** ** Runs of the Python cell *)

Section AutoMLRuns.
Variable svc : service AutoML.response_t.
Variable job : string.

Lemma automl_done pre sn fuel :
  Poll.answers svc (pre ++ [sn]) -> Forall AutoML.continues pre -> AutoML.exits sn ->
  length pre <= fuel ->
  AutoML.run_cell svc job fuel =
  (Val (AutoML.vars_of sn),
   World (S (length pre)) (AutoML.trace job (pre ++ [sn]))).
Proof.
  intros Hsvc Hgo Hstop Hfuel. rewrite automl_run_shape.
  rewrite (run_done _ _ _ _ _ _ _ pre sn); trivial.
  - now apply automl_going.
  - now apply automl_stop.
Qed.

Lemma automl_raised pre e fuel :
  Poll.answers svc pre -> Forall AutoML.continues pre ->
  svc (length pre) = Raised e -> length pre <= fuel ->
  AutoML.run_cell svc job fuel =
  (Exn e, World (S (length pre)) (AutoML.trace_raised job pre)).
Proof.
  intros Hsvc Hgo He Hfuel. rewrite automl_run_shape.
  rewrite (run_raised _ _ _ _ _ _ _ pre e); trivial.
  now apply automl_going.
Qed.

Lemma automl_running hist fuel :
  Poll.answers svc hist -> Forall AutoML.continues hist -> length hist = S fuel ->
  AutoML.run_cell svc job fuel = (Running, World (S fuel) (AutoML.trace job hist)).
Proof.
  intros Hsvc Hgo Hlen. rewrite automl_run_shape.
  rewrite (run_running _ _ _ _ _ _ _ hist); trivial.
  now apply automl_going.
Qed.

Lemma automl_val_inv fuel v w :
  AutoML.run_cell svc job fuel = (Val v, w) ->
  exists pre sn, v = AutoML.vars_of sn /\
    Poll.answers svc (pre ++ [sn]) /\ Forall AutoML.continues pre /\ AutoML.exits sn /\
    w = World (S (length pre)) (AutoML.trace job (pre ++ [sn])).
Proof.
  rewrite automl_run_shape. intros H.
  destruct (Poll.run _ _ _ _ _ _ _ fuel w0) as [[sn| |] w'] eqn:E;
    cbn [map_outcome] in H; try discriminate.
  injection H as <- <-.
  destruct (run_val_inv _ _ _ _ _ _ _ _ _ _ E) as (pre & Hsvc & Hgo & Hstop & ->).
  exists pre, sn; repeat split; trivial.
  - now apply automl_going_inv.
  - now apply automl_stop.
Qed.

Lemma automl_snd fuel :
  snd (AutoML.run_cell svc job fuel) =
  snd (Poll.run svc AutoML.operation job
         AutoML.stop AutoML.after_query AutoML.header AutoML.before_sleep fuel w0).
Proof.
  rewrite automl_run_shape.
  now destruct (Poll.run _ _ _ _ _ _ _ fuel w0) as [[| |] ?].
Qed.

Lemma automl_queries fuel :
  queries (log (snd (AutoML.run_cell svc job fuel))) =
  calls (snd (AutoML.run_cell svc job fuel)).
Proof. rewrite automl_snd. now apply run_queries. Qed.

Lemma automl_forever :
  (forall k, exists s, svc k = Returned s /\ AutoML.continues s) ->
  forall fuel, exists hist, length hist = S fuel /\ Poll.answers svc hist /\
    AutoML.run_cell svc job fuel = (Running, World (S fuel) (AutoML.trace job hist)).
Proof.
  intros Hall fuel.
  destruct (run_forever svc AutoML.operation job AutoML.stop AutoML.after_query
              AutoML.header AutoML.before_sleep) with (fuel := fuel)
    as (hist & Hlen & Hsvc & Hgo & Hrun).
  - intros k. destruct (Hall k) as (s & Hs & Hc). exists s; split; trivial.
    unfold AutoML.stop. now rewrite Hc.
  - exists hist; repeat split; trivial.
    rewrite automl_run_shape. unfold AutoML.trace. now rewrite Hrun.
Qed.

End AutoMLRuns.

(** ** Runs of the R cell *)

Section TuningRuns.
Variable svc : service Tuning.response_t.
Variables name job : string.

Lemma tuning_done pre sn fuel :
  Poll.answers svc (pre ++ [sn]) -> Forall Tuning.continues pre -> Tuning.exits sn ->
  length pre <= fuel ->
  Tuning.run_cell svc name job fuel =
  (Val sn, World (S (length pre)) (Tuning.trace name job (pre ++ [sn]))).
Proof.
  intros Hsvc Hgo Hstop Hfuel. rewrite tuning_run_shape.
  rewrite (run_done _ _ _ _ _ _ _ pre sn); trivial.
  - now apply tuning_going.
  - now apply tuning_stop.
Qed.

Lemma tuning_raised pre e fuel :
  Poll.answers svc pre -> Forall Tuning.continues pre ->
  svc (length pre) = Raised e -> length pre <= fuel ->
  Tuning.run_cell svc name job fuel =
  (Exn e, World (S (length pre)) (Tuning.trace_raised name job pre)).
Proof.
  intros Hsvc Hgo He Hfuel. rewrite tuning_run_shape.
  rewrite (run_raised _ _ _ _ _ _ _ pre e); trivial.
  now apply tuning_going.
Qed.

Lemma tuning_running hist fuel :
  Poll.answers svc hist -> Forall Tuning.continues hist -> length hist = S fuel ->
  Tuning.run_cell svc name job fuel =
  (Running, World (S fuel) (Tuning.trace name job hist)).
Proof.
  intros Hsvc Hgo Hlen. rewrite tuning_run_shape.
  rewrite (run_running _ _ _ _ _ _ _ hist); trivial.
  now apply tuning_going.
Qed.

Lemma tuning_val_inv fuel v w :
  Tuning.run_cell svc name job fuel = (Val v, w) ->
  exists pre, Poll.answers svc (pre ++ [v]) /\ Forall Tuning.continues pre /\
    Tuning.exits v /\
    w = World (S (length pre)) (Tuning.trace name job (pre ++ [v])).
Proof.
  rewrite tuning_run_shape. intros E.
  destruct (run_val_inv _ _ _ _ _ _ _ _ _ _ E) as (pre & Hsvc & Hgo & Hstop & ->).
  exists pre; repeat split; trivial.
  - now apply tuning_going_inv.
  - now apply tuning_stop.
Qed.

Lemma tuning_queries fuel :
  queries (log (snd (Tuning.run_cell svc name job fuel))) =
  calls (snd (Tuning.run_cell svc name job fuel)).
Proof. rewrite tuning_run_shape. now apply run_queries. Qed.

Lemma tuning_forever :
  (forall k, exists s, svc k = Returned s /\ Tuning.continues s) ->
  forall fuel, exists hist, length hist = S fuel /\ Poll.answers svc hist /\
    Tuning.run_cell svc name job fuel =
    (Running, World (S fuel) (Tuning.trace name job hist)).
Proof.
  intros Hall fuel.
  destruct (run_forever svc Tuning.operation name Tuning.stop Tuning.after_query
              (Tuning.header job) Tuning.before_sleep) with (fuel := fuel)
    as (hist & Hlen & Hsvc & Hgo & Hrun).
  - intros k. destruct (Hall k) as (s & Hs & Hc). exists s; split; trivial.
    unfold Tuning.stop. now rewrite Hc.
  - exists hist; repeat split; trivial.
    rewrite tuning_run_shape. unfold Tuning.trace. now rewrite Hrun.
Qed.

End TuningRuns.

Section AutoMLLogs.
Variable svc : service AutoML.response_t.
Variable job : string.

Lemma automl_calls_le fuel k s :
  svc k = Returned s -> AutoML.exits s ->
  queries (log (snd (AutoML.run_cell svc job fuel))) <= S k.
Proof.
  intros Hk Hs. rewrite automl_queries, automl_snd.
  apply run_calls_le with s; trivial. now apply automl_stop.
Qed.

Lemma automl_calls_le_raised fuel k e :
  svc k = Raised e ->
  queries (log (snd (AutoML.run_cell svc job fuel))) <= S k.
Proof.
  intros Hk. rewrite automl_queries, automl_snd.
  now apply run_calls_le_raised with e.
Qed.

Lemma automl_goes_on hist fuel :
  Poll.answers svc hist -> Forall AutoML.continues hist -> length hist <= fuel ->
  S (length hist) <= queries (log (snd (AutoML.run_cell svc job fuel))).
Proof.
  intros Hsvc Hgo Hfuel. rewrite automl_queries, automl_snd.
  apply run_goes_on; trivial. now apply automl_going.
Qed.

Lemma automl_effects fuel :
  effects (log (snd (AutoML.run_cell svc job fuel))) =
  AutoML.rhythm job (queries (log (snd (AutoML.run_cell svc job fuel))) - 1).
Proof. rewrite automl_queries, automl_snd. now apply run_effects. Qed.

Lemma automl_queries_trace hist : queries (AutoML.trace job hist) = length hist.
Proof. now apply queries_trace. Qed.

Lemma automl_sleeps_trace hist : sleeps (AutoML.trace job hist) = length hist - 1.
Proof. now apply sleeps_trace. Qed.

Lemma automl_queries_trace_raised hist :
  queries (AutoML.trace_raised job hist) = S (length hist).
Proof. now apply queries_trace_raised. Qed.

End AutoMLLogs.

Section TuningLogs.
Variable svc : service Tuning.response_t.
Variables name job : string.

Lemma tuning_calls_le fuel k s :
  svc k = Returned s -> Tuning.exits s ->
  queries (log (snd (Tuning.run_cell svc name job fuel))) <= S k.
Proof.
  intros Hk Hs. rewrite tuning_queries, tuning_run_shape.
  apply run_calls_le with s; trivial. now apply tuning_stop.
Qed.

Lemma tuning_calls_le_raised fuel k e :
  svc k = Raised e ->
  queries (log (snd (Tuning.run_cell svc name job fuel))) <= S k.
Proof.
  intros Hk. rewrite tuning_queries, tuning_run_shape.
  now apply run_calls_le_raised with e.
Qed.

Lemma tuning_goes_on hist fuel :
  Poll.answers svc hist -> Forall Tuning.continues hist -> length hist <= fuel ->
  S (length hist) <= queries (log (snd (Tuning.run_cell svc name job fuel))).
Proof.
  intros Hsvc Hgo Hfuel. rewrite tuning_queries, tuning_run_shape.
  apply run_goes_on; trivial. now apply tuning_going.
Qed.

Lemma tuning_effects fuel :
  effects (log (snd (Tuning.run_cell svc name job fuel))) =
  Tuning.rhythm name (queries (log (snd (Tuning.run_cell svc name job fuel))) - 1).
Proof. rewrite tuning_queries, tuning_run_shape. now apply run_effects. Qed.

Lemma tuning_queries_trace hist : queries (Tuning.trace name job hist) = length hist.
Proof. now apply queries_trace. Qed.

Lemma tuning_sleeps_trace hist :
  sleeps (Tuning.trace name job hist) = length hist - 1.
Proof. now apply sleeps_trace. Qed.

Lemma tuning_queries_trace_raised hist :
  queries (Tuning.trace_raised name job hist) = S (length hist).
Proof. now apply queries_trace_raised. Qed.

End TuningLogs.

(** ** Scripted services *)

Lemma script_nil {S} (d : reply S) k : script [] d k = d.
Proof. now destruct k. Qed.

Lemma answers_one {S} (svc : service S) s :
  svc 0 = Returned s -> Poll.answers svc ([] ++ [s]).
Proof.
  intros H [|[|i]] x Hx; try discriminate. now injection Hx as <-.
Qed.

Lemma answers_nil {S} (svc : service S) : Poll.answers svc [].
Proof. intros [|i] x Hx; discriminate. Qed.

(** The log of a run that ended with an exception ends with the call
    that raised it. *)
Lemma trace_raised_last {S} op job (after_query : S -> list event) header
  (before_sleep : S -> list event) hist :
  exists l,
    Poll.trace_raised op job after_query header before_sleep hist =
    l ++ [Query op job].
Proof.
  destruct hist as [|s0 l]; cbn [Poll.trace_raised].
  - now exists [].
  - exists (Poll.trace op job after_query header before_sleep (s0 :: l)
            ++ before_sleep (last l s0) ++ [Sleep 60]).
    now rewrite <- !app_assoc.
Qed.

(** ** What every run has reported *)

Lemma nth_error_removelast {A} (l : list A) : forall k x,
  nth_error l k = Some x -> k + 1 < length l -> In x (removelast l).
Proof.
  induction l as [|a l IH]; intros k x Hk Hlt; [destruct k; discriminate|].
  destruct l as [|b l]; [cbn [length] in Hlt; lia|].
  change (removelast (a :: b :: l)) with (a :: removelast (b :: l)).
  destruct k as [|k]; cbn [nth_error] in Hk.
  - injection Hk as ->. now left.
  - right. apply (IH k); trivial. cbn [length] in *. lia.
Qed.

Lemma In_removelast_or_last {A} (l : list A) (a x : A) :
  In x (a :: l) -> In x (removelast (a :: l)) \/ x = last l a.
Proof.
  revert a; induction l as [|b l IH]; intros a Hin.
  - destruct Hin as [->|[]]. now right.
  - change (removelast (a :: b :: l)) with (a :: removelast (b :: l)).
    rewrite last_cons. destruct Hin as [->|Hin]; [left; now left|].
    destruct (IH b Hin) as [H|H]; [left; now right|now right].
Qed.

Section PollReports.
Context {S : Type}.
Variable svc : service S.
Variables operation job : string.
Variable stop : S -> bool.
Variable after_query : S -> list event.
Variable header : list event.
Variable before_sleep : S -> list event.

Local Abbreviation run := (Poll.run svc operation job stop after_query header before_sleep).
Local Abbreviation iterations := (Poll.iterations operation job after_query before_sleep).
Local Abbreviation trace := (Poll.trace operation job after_query header before_sleep).
Local Abbreviation trace_raised :=
  (Poll.trace_raised operation job after_query header before_sleep).

Lemma trace_before_removelast hist s :
  In s (removelast hist) -> incl (before_sleep s) (trace hist).
Proof.
  destruct hist as [|s0 l]; intros Hin e He; [destruct Hin|].
  cbn [Poll.trace]. right. apply in_or_app; right. apply in_or_app; right.
  now apply (iterations_before operation job after_query before_sleep l s0 s).
Qed.

Lemma trace_raised_before hist s :
  In s hist -> incl (before_sleep s) (trace_raised hist).
Proof.
  destruct hist as [|s0 l]; intros Hin e He; [destruct Hin|].
  cbn [Poll.trace_raised].
  destruct (In_removelast_or_last l s0 s Hin) as [H| ->].
  - apply in_or_app; left. now apply (trace_before_removelast (s0 :: l) s).
  - apply in_or_app; right. apply in_or_app; now left.
Qed.

Lemma trace_raised_after hist s :
  In s hist -> incl (after_query s) (trace_raised hist).
Proof.
  destruct hist as [|s0 l]; intros Hin e He; [destruct Hin|].
  cbn [Poll.trace_raised]. apply in_or_app; left.
  now apply (trace_after operation job after_query header before_sleep (s0 :: l) s).
Qed.

(** The snapshot returned by call [k] of a run with the snapshots [hist]. *)
Lemma answer_in hist k s :
  Poll.answers svc hist -> svc k = Returned s -> k < length hist ->
  nth_error hist k = Some s.
Proof.
  intros Hsvc Hk Hlt.
  destruct (nth_error hist k) as [x|] eqn:E.
  - pose proof (Hsvc k x E) as Hx. rewrite Hk in Hx. now injection Hx as ->.
  - apply nth_error_None in E. lia.
Qed.

(** In every run the output that follows a fetch is in the log for every
    call that was made and answered. *)
Lemma run_reports_after fuel k s :
  svc k = Returned s -> k < calls (snd (run fuel w0)) ->
  incl (after_query s) (log (snd (run fuel w0))).
Proof.
  intros Hk.
  destruct (run_cases svc operation job stop after_query header before_sleep fuel)
    as (hist & Hsvc & Hgo &
        [(sn & Hl & Hs & Hsn & ->)|[(e & Hl & He & ->)|(Hl & ->)]]);
    cbn [snd calls log]; intros Hlt.
  - apply trace_after. apply nth_error_In with k.
    apply answer_in; trivial; [now apply answers_snoc|].
    rewrite length_app; cbn [length]; lia.
  - apply trace_raised_after. apply nth_error_In with k.
    apply answer_in; trivial.
    assert (k <> length hist) by (intros ->; congruence). lia.
  - apply trace_after. apply nth_error_In with k.
    apply answer_in; trivial. lia.
Qed.

(** In every run the output written at the top of the loop body is in
    the log for every answered call that was followed by another call. *)
Lemma run_reports_before fuel k s :
  svc k = Returned s -> k + 1 < calls (snd (run fuel w0)) ->
  incl (before_sleep s) (log (snd (run fuel w0))).
Proof.
  intros Hk.
  destruct (run_cases svc operation job stop after_query header before_sleep fuel)
    as (hist & Hsvc & Hgo &
        [(sn & Hl & Hs & Hsn & ->)|[(e & Hl & He & ->)|(Hl & ->)]]);
    cbn [snd calls log]; intros Hlt.
  - apply trace_before. apply nth_error_In with k.
    apply answer_in; trivial. lia.
  - apply trace_raised_before. apply nth_error_In with k.
    apply answer_in; trivial. lia.
  - apply trace_before_removelast. apply nth_error_removelast with k.
    + apply answer_in; trivial. lia.
    + lia.
Qed.

(** Every run starts with a call. *)
Lemma run_starts_with_query fuel :
  exists rest, log (snd (run fuel w0)) = Query operation job :: rest.
Proof.
  destruct (run_cases svc operation job stop after_query header before_sleep fuel)
    as (hist & Hsvc & Hgo &
        [(sn & Hl & Hs & Hsn & ->)|[(e & Hl & He & ->)|(Hl & ->)]]);
    cbn [snd log].
  - destruct hist as [|s0 l]; cbn [app Poll.trace]; eexists; reflexivity.
  - destruct hist as [|s0 l]; cbn [Poll.trace_raised Poll.trace].
    + eexists; reflexivity.
    + rewrite <- app_comm_cons. eexists; reflexivity.
  - destruct hist as [|s0 l]; [discriminate|]. cbn [Poll.trace].
    eexists; reflexivity.
Qed.

End PollReports.

(** A scripted service answers with its script. *)
Ltac scripted :=
  let i := fresh "i" in
  let x := fresh "x" in
  let Hx := fresh "Hx" in
  intros i x Hx;
  repeat (destruct i as [|i]; [now injection Hx as <-|]);
  destruct i; discriminate.

(** * The claims *)

(** C1, as stated, fails: a snapshot whose primary status is the terminal
    value Stopped (Python) or Failed (R) does not end the polling.  With a
    job that stays in that state, the first answer is terminal and the cell
    has made three calls after two iterations. *)
Lemma C1_counterexample :
  (terminal_status (AutoML.primary (Examples.py "Stopped" "Stopped")) = true /\
   Examples.py_stopped 0 = Returned (Examples.py "Stopped" "Stopped") /\
   queries (log (snd (AutoML.run_cell Examples.py_stopped "job" 2))) = 3) /\
  (terminal_status (Tuning.primary Examples.failed_tuning) = true /\
   Examples.r_failed 0 = Returned Examples.failed_tuning /\
   queries (log (snd (Tuning.run_cell Examples.r_failed "tuning-job" "job" 2))) = 3).
Proof. repeat split. Qed.

(** C1, amended: once a call returns a snapshot whose primary status is
    Completed or, in the Python cell, whose secondary status is Failed, no
    further call is made: if that was call number k (from 0), a run makes
    at most k + 1 calls, whatever the bound on the iterations. *)
Theorem C1_no_call_after_exit :
  (forall svc job fuel k s,
     svc k = Returned s ->
     AutoML.AutoMLJobStatus s = "Completed" \/ AutoML.AutoMLJobSecondaryStatus s = "Failed" ->
     queries (log (snd (AutoML.run_cell svc job fuel))) <= k + 1) /\
  (forall svc name job fuel k s,
     svc k = Returned s ->
     Tuning.HyperParameterTuningJobStatus s = "Completed" ->
     queries (log (snd (Tuning.run_cell svc name job fuel))) <= k + 1).
Proof.
  split.
  - intros svc job fuel k s Hk Hs. rewrite Nat.add_1_r.
    apply automl_calls_le with s; trivial. now apply automl_exit_test.
  - intros svc name job fuel k s Hk Hs. rewrite Nat.add_1_r.
    apply tuning_calls_le with s; trivial. now apply tuning_exit_test.
Qed.

Lemma C1_witness :
  (Examples.py_completes 2 = Returned Examples.py_last /\
   (AutoML.AutoMLJobStatus Examples.py_last = "Completed" \/
    AutoML.AutoMLJobSecondaryStatus Examples.py_last = "Failed") /\
   queries (log (snd (AutoML.run_cell Examples.py_completes "job" 9))) <= 2 + 1) /\
  (Examples.r_completes 2 = Returned Examples.r_last /\
   Tuning.HyperParameterTuningJobStatus Examples.r_last = "Completed" /\
   queries (log (snd (Tuning.run_cell Examples.r_completes "tuning-job" "job" 9)))
   <= 2 + 1).
Proof.
  split.
  - assert (H1 : Examples.py_completes 2 = Returned Examples.py_last) by reflexivity.
    assert (H2 : AutoML.AutoMLJobStatus Examples.py_last = "Completed" \/
                 AutoML.AutoMLJobSecondaryStatus Examples.py_last = "Failed")
      by (left; reflexivity).
    exact (conj H1 (conj H2
      (proj1 C1_no_call_after_exit Examples.py_completes "job" 9 2 _ H1 H2))).
  - assert (H1 : Examples.r_completes 2 = Returned Examples.r_last) by reflexivity.
    assert (H2 : Tuning.HyperParameterTuningJobStatus Examples.r_last = "Completed")
      by reflexivity.
    exact (conj H1 (conj H2
      (proj2 C1_no_call_after_exit Examples.r_completes "tuning-job" "job" 9 2 _ H1 H2))).
Defined.

(** C2, as stated, fails: for the one-element sequence [Failed] of the R
    cell (n = 0, s0 terminal) the claim promises one call and the return
    of s0, but the cell never returns and is at its second call after one
    iteration; likewise the Python cell on [Stopped]. *)
Lemma C2_counterexample :
  (terminal_status (Tuning.primary Examples.failed_tuning) = true /\
   Examples.r_failed 0 = Returned Examples.failed_tuning /\
   queries (log (snd (Tuning.run_cell Examples.r_failed "tuning-job" "job" 1))) = 2 /\
   ~ exists fuel v w,
       Tuning.run_cell Examples.r_failed "tuning-job" "job" fuel = (Val v, w)) /\
  (terminal_status (AutoML.primary (Examples.py "Stopped" "Stopped")) = true /\
   Examples.py_stopped 0 = Returned (Examples.py "Stopped" "Stopped") /\
   queries (log (snd (AutoML.run_cell Examples.py_stopped "job" 1))) = 2 /\
   ~ exists fuel v w, AutoML.run_cell Examples.py_stopped "job" fuel = (Val v, w)).
Proof.
  split; (split; [reflexivity|split; [reflexivity|split; [reflexivity|]]]).
  - intros (fuel & v & w & H).
    destruct (tuning_forever Examples.r_failed "tuning-job" "job") with (fuel := fuel)
      as (hist & _ & _ & E).
    + intros k. exists Examples.failed_tuning. split; [apply script_nil|reflexivity].
    + congruence.
  - intros (fuel & v & w & H).
    destruct (automl_forever Examples.py_stopped "job") with (fuel := fuel)
      as (hist & _ & _ & E).
    + intros k. exists (Examples.py "Stopped" "Stopped").
      split; [apply script_nil|reflexivity].
    + congruence.
Qed.

(** C2, amended: for every sequence of snapshots s0 .. sn answered by
    successive calls, in which the condition of the [while] holds on
    s0 .. s(n-1) and fails on sn, the cell makes exactly n + 1 calls and
    ends with sn, as soon as n iterations are allowed. *)
Theorem C2_calls_until_exit :
  (forall svc job pre sn fuel,
     Poll.answers svc (pre ++ [sn]) -> Forall AutoML.continues pre -> AutoML.exits sn ->
     length pre <= fuel ->
     AutoML.run_cell svc job fuel =
     (Val (AutoML.vars_of sn),
      World (length pre + 1) (AutoML.trace job (pre ++ [sn]))) /\
     queries (AutoML.trace job (pre ++ [sn])) = length pre + 1) /\
  (forall svc name job pre sn fuel,
     Poll.answers svc (pre ++ [sn]) -> Forall Tuning.continues pre -> Tuning.exits sn ->
     length pre <= fuel ->
     Tuning.run_cell svc name job fuel =
     (Val sn, World (length pre + 1) (Tuning.trace name job (pre ++ [sn]))) /\
     queries (Tuning.trace name job (pre ++ [sn])) = length pre + 1).
Proof.
  split.
  - intros svc job pre sn fuel Hsvc Hgo Hstop Hfuel. split.
    + rewrite Nat.add_1_r. now apply automl_done.
    + rewrite automl_queries_trace, length_app. reflexivity.
  - intros svc name job pre sn fuel Hsvc Hgo Hstop Hfuel. split.
    + rewrite Nat.add_1_r. now apply tuning_done.
    + rewrite tuning_queries_trace, length_app. reflexivity.
Qed.

(** The scenario [InProgress, InProgress, Completed]: Completed is
    returned after exactly 3 calls. *)
Lemma C2_witness :
  (Poll.answers Examples.py_completes (Examples.py_pre ++ [Examples.py_last]) /\
   Forall AutoML.continues Examples.py_pre /\ AutoML.exits Examples.py_last /\
   length Examples.py_pre <= 2 /\
   AutoML.run_cell Examples.py_completes "job" 2 =
   (Val (AutoML.vars_of Examples.py_last),
    World 3 (AutoML.trace "job" (Examples.py_pre ++ [Examples.py_last]))) /\
   queries (AutoML.trace "job" (Examples.py_pre ++ [Examples.py_last])) = 3) /\
  (Poll.answers Examples.r_completes (Examples.r_pre ++ [Examples.r_last]) /\
   Forall Tuning.continues Examples.r_pre /\ Tuning.exits Examples.r_last /\
   length Examples.r_pre <= 2 /\
   Tuning.run_cell Examples.r_completes "tuning-job" "job" 2 =
   (Val Examples.r_last,
    World 3 (Tuning.trace "tuning-job" "job" (Examples.r_pre ++ [Examples.r_last]))) /\
   queries (Tuning.trace "tuning-job" "job" (Examples.r_pre ++ [Examples.r_last])) = 3).
Proof.
  split.
  - assert (H1 : Poll.answers Examples.py_completes
                   (Examples.py_pre ++ [Examples.py_last])) by scripted.
    assert (H2 : Forall AutoML.continues Examples.py_pre) by (repeat constructor).
    assert (H3 : AutoML.exits Examples.py_last) by reflexivity.
    assert (H4 : length Examples.py_pre <= 2) by (simpl; lia).
    exact (conj H1 (conj H2 (conj H3 (conj H4
      (proj1 C2_calls_until_exit Examples.py_completes "job" _ _ 2 H1 H2 H3 H4))))).
  - assert (H1 : Poll.answers Examples.r_completes
                   (Examples.r_pre ++ [Examples.r_last])) by scripted.
    assert (H2 : Forall Tuning.continues Examples.r_pre) by (repeat constructor).
    assert (H3 : Tuning.exits Examples.r_last) by reflexivity.
    assert (H4 : length Examples.r_pre <= 2) by (simpl; lia).
    exact (conj H1 (conj H2 (conj H3 (conj H4
      (proj2 C2_calls_until_exit Examples.r_completes "tuning-job" "job" _ _ 2
         H1 H2 H3 H4))))).
Defined.

(** C3, as stated, fails: when the first call of the R cell returns a
    snapshot with status Failed, the cell does not return it but goes on
    polling, and never returns while the job stays Failed; the Python cell
    does the same on a snapshot whose primary status is Failed and whose
    secondary status is not. *)
Lemma C3_counterexample :
  (Tuning.primary Examples.failed_tuning = "Failed" /\
   Examples.r_failed 0 = Returned Examples.failed_tuning /\
   queries (log (snd (Tuning.run_cell Examples.r_failed "tuning-job" "job" 3))) = 4 /\
   ~ exists fuel v w,
       Tuning.run_cell Examples.r_failed "tuning-job" "job" fuel = (Val v, w)) /\
  (AutoML.primary (Examples.py "Failed" "ExplainabilityError") = "Failed" /\
   Examples.py_failed_step 0 = Returned (Examples.py "Failed" "ExplainabilityError") /\
   queries (log (snd (AutoML.run_cell Examples.py_failed_step "job" 3))) = 4 /\
   ~ exists fuel v w, AutoML.run_cell Examples.py_failed_step "job" fuel = (Val v, w)).
Proof.
  split; (split; [reflexivity|split; [reflexivity|split; [reflexivity|]]]).
  - intros (fuel & v & w & H).
    destruct (tuning_forever Examples.r_failed "tuning-job" "job") with (fuel := fuel)
      as (hist & _ & _ & E).
    + intros k. exists Examples.failed_tuning. split; [apply script_nil|reflexivity].
    + congruence.
  - intros (fuel & v & w & H).
    destruct (automl_forever Examples.py_failed_step "job") with (fuel := fuel)
      as (hist & _ & _ & E).
    + intros k. exists (Examples.py "Failed" "ExplainabilityError").
      split; [apply script_nil|reflexivity].
    + congruence.
Qed.

(** C3, amended: in the Python cell, if the first call returns a snapshot
    whose secondary status is Failed (as for a failed job, reported Failed
    in both fields), the cell makes exactly one call and ends normally with
    that snapshot in its variables: the outcome is a value, not a raised
    exception, and the log holds the call and the printed status only. *)
Theorem C3_failed_first_is_returned :
  forall svc job s fuel,
    svc 0 = Returned s ->
    AutoML.AutoMLJobSecondaryStatus s = "Failed" ->
    AutoML.run_cell svc job fuel =
    (Val (AutoML.Vars s (AutoML.AutoMLJobStatus s) "Failed"),
     World 1
       [Query "describe_auto_ml_job" job;
        Printed (AutoML.status_line (AutoML.AutoMLJobStatus s) "Failed")]) /\
    queries (log (snd (AutoML.run_cell svc job fuel))) = 1.
Proof.
  intros svc job s fuel H0 Hsec.
  assert (E : AutoML.run_cell svc job fuel =
              (Val (AutoML.vars_of s), World 1 (AutoML.trace job ([] ++ [s])))).
  { apply (automl_done svc job [] s fuel);
      [now apply answers_one| constructor | | simpl; lia].
    apply automl_exit_test. now right. }
  rewrite E. unfold AutoML.vars_of, AutoML.trace, AutoML.after_query.
  cbn [app Poll.trace Poll.iterations AutoML.header AutoML.operation snd log].
  rewrite Hsec. split; reflexivity.
Qed.

Lemma C3_witness :
  Examples.py_failed 0 = Returned (Examples.py "Failed" "Failed") /\
  AutoML.AutoMLJobSecondaryStatus (Examples.py "Failed" "Failed") = "Failed" /\
  AutoML.run_cell Examples.py_failed "job" 5 =
  (Val (AutoML.Vars (Examples.py "Failed" "Failed") "Failed" "Failed"),
   World 1 [Query "describe_auto_ml_job" "job"; Printed "Failed - Failed"]) /\
  queries (log (snd (AutoML.run_cell Examples.py_failed "job" 5))) = 1.
Proof.
  assert (H1 : Examples.py_failed 0 = Returned (Examples.py "Failed" "Failed"))
    by reflexivity.
  assert (H2 : AutoML.AutoMLJobSecondaryStatus (Examples.py "Failed" "Failed") = "Failed")
    by reflexivity.
  exact (conj H1 (conj H2
    (C3_failed_first_is_returned Examples.py_failed "job" _ 5 H1 H2))).
Defined.

(** C4: if the calls before it returned snapshots on which the loop goes
    on and a call, the first or a later one, raises, then the cell ends
    with that very exception, the raising call is the last event of the
    log, and the number of calls is the number of snapshots plus the one
    failed call, however many iterations are allowed: the call is not
    repeated and nothing follows it.  In any run whatever, no call is made
    after a call that raised. *)
Theorem C4_query_error_propagates :
  (forall svc job pre e fuel,
     Poll.answers svc pre -> Forall AutoML.continues pre ->
     svc (length pre) = Raised e -> length pre <= fuel ->
     AutoML.run_cell svc job fuel =
     (Exn e, World (length pre + 1) (AutoML.trace_raised job pre)) /\
     queries (AutoML.trace_raised job pre) = length pre + 1 /\
     exists l, AutoML.trace_raised job pre = l ++ [Query "describe_auto_ml_job" job]) /\
  (forall svc name job pre e fuel,
     Poll.answers svc pre -> Forall Tuning.continues pre ->
     svc (length pre) = Raised e -> length pre <= fuel ->
     Tuning.run_cell svc name job fuel =
     (Exn e, World (length pre + 1) (Tuning.trace_raised name job pre)) /\
     queries (Tuning.trace_raised name job pre) = length pre + 1 /\
     exists l, Tuning.trace_raised name job pre =
               l ++ [Query "describe_hyper_parameter_tuning_job" name]) /\
  (forall svc job k e fuel,
     svc k = Raised e ->
     queries (log (snd (AutoML.run_cell svc job fuel))) <= k + 1) /\
  (forall svc name job k e fuel,
     svc k = Raised e ->
     queries (log (snd (Tuning.run_cell svc name job fuel))) <= k + 1).
Proof.
  split; [|split; [|split]].
  - intros svc job pre e fuel Hsvc Hgo He Hfuel. repeat split.
    + rewrite Nat.add_1_r. now apply automl_raised.
    + rewrite automl_queries_trace_raised. lia.
    + apply trace_raised_last.
  - intros svc name job pre e fuel Hsvc Hgo He Hfuel. repeat split.
    + rewrite Nat.add_1_r. now apply tuning_raised.
    + rewrite tuning_queries_trace_raised. lia.
    + apply trace_raised_last.
  - intros svc job k e fuel Hk. rewrite Nat.add_1_r.
    now apply automl_calls_le_raised with e.
  - intros svc name job k e fuel Hk. rewrite Nat.add_1_r.
    now apply tuning_calls_le_raised with e.
Qed.

Lemma C4_witness :
  (Poll.answers Examples.py_raises [Examples.py "InProgress" "AnalyzingData"] /\
   Examples.py_raises 1 = Raised "EndpointConnectionError" /\
   AutoML.run_cell Examples.py_raises "job" 8 =
   (Exn "EndpointConnectionError",
    World 2 (AutoML.trace_raised "job" [Examples.py "InProgress" "AnalyzingData"]))) /\
  (Poll.answers Examples.r_raises [Examples.r "InProgress"] /\
   Examples.r_raises 1 = Raised "EndpointConnectionError" /\
   Tuning.run_cell Examples.r_raises "tuning-job" "job" 8 =
   (Exn "EndpointConnectionError",
    World 2 (Tuning.trace_raised "tuning-job" "job" [Examples.r "InProgress"]))).
Proof.
  split.
  - assert (H1 : Poll.answers Examples.py_raises
                   [Examples.py "InProgress" "AnalyzingData"]) by scripted.
    assert (H2 : Forall AutoML.continues [Examples.py "InProgress" "AnalyzingData"])
      by (repeat constructor).
    assert (H3 : Examples.py_raises 1 = Raised "EndpointConnectionError")
      by reflexivity.
    assert (H4 : 1 <= 8) by lia.
    exact (conj H1 (conj H3
      (proj1 (proj1 C4_query_error_propagates Examples.py_raises "job" _ _ 8
                H1 H2 H3 H4)))).
  - assert (H1 : Poll.answers Examples.r_raises [Examples.r "InProgress"])
      by scripted.
    assert (H2 : Forall Tuning.continues [Examples.r "InProgress"])
      by (repeat constructor).
    assert (H3 : Examples.r_raises 1 = Raised "EndpointConnectionError")
      by reflexivity.
    assert (H4 : 1 <= 8) by lia.
    exact (conj H1 (conj H3
      (proj1 (proj1 (proj2 C4_query_error_propagates) Examples.r_raises
                "tuning-job" "job" _ _ 8 H1 H2 H3 H4)))).
Defined.

(** C5, as stated, fails: the first call of the R cell returns the
    terminal snapshot Failed, yet within one iteration the cell has slept
    once and called a second time; the Python cell does the same on the
    terminal snapshot Stopped. *)
Lemma C5_counterexample :
  (terminal_status (Tuning.primary Examples.failed_tuning) = true /\
   Examples.r_failed 0 = Returned Examples.failed_tuning /\
   queries (log (snd (Tuning.run_cell Examples.r_failed "tuning-job" "job" 1))) = 2 /\
   sleeps (log (snd (Tuning.run_cell Examples.r_failed "tuning-job" "job" 1))) = 1) /\
  (terminal_status (AutoML.primary (Examples.py "Stopped" "Stopped")) = true /\
   Examples.py_stopped 0 = Returned (Examples.py "Stopped" "Stopped") /\
   queries (log (snd (AutoML.run_cell Examples.py_stopped "job" 1))) = 2 /\
   sleeps (log (snd (AutoML.run_cell Examples.py_stopped "job" 1))) = 1).
Proof. repeat split. Qed.

(** C5, amended: if the first call already returns a snapshot on which
    the condition of the [while] fails (primary status Completed, or in
    the Python cell secondary status Failed), the cell makes exactly one
    call and never sleeps before it ends. *)
Theorem C5_exit_at_first_call :
  (forall svc job s fuel,
     svc 0 = Returned s -> AutoML.exits s ->
     AutoML.run_cell svc job fuel =
     (Val (AutoML.vars_of s), World 1 (AutoML.trace job [s])) /\
     queries (AutoML.trace job [s]) = 1 /\ sleeps (AutoML.trace job [s]) = 0) /\
  (forall svc name job s fuel,
     svc 0 = Returned s -> Tuning.exits s ->
     Tuning.run_cell svc name job fuel =
     (Val s, World 1 (Tuning.trace name job [s])) /\
     queries (Tuning.trace name job [s]) = 1 /\
     sleeps (Tuning.trace name job [s]) = 0).
Proof.
  split.
  - intros svc job s fuel H0 Hs. repeat split.
    apply (automl_done svc job [] s fuel);
      [now apply answers_one|constructor|exact Hs|simpl; lia].
  - intros svc name job s fuel H0 Hs. repeat split.
    apply (tuning_done svc name job [] s fuel);
      [now apply answers_one|constructor|exact Hs|simpl; lia].
Qed.

Lemma C5_witness :
  (Examples.py_done 0 = Returned (Examples.py "Completed" "Completed") /\
   AutoML.exits (Examples.py "Completed" "Completed") /\
   AutoML.run_cell Examples.py_done "job" 4 =
   (Val (AutoML.vars_of (Examples.py "Completed" "Completed")),
    World 1 [Query "describe_auto_ml_job" "job"; Printed "Completed - Completed"])) /\
  (Examples.r_done 0 = Returned (Examples.r "Completed") /\
   Tuning.exits (Examples.r "Completed") /\
   Tuning.run_cell Examples.r_done "tuning-job" "job" 4 =
   (Val (Examples.r "Completed"),
    World 1 (Tuning.trace "tuning-job" "job" [Examples.r "Completed"]))).
Proof.
  split.
  - assert (H1 : Examples.py_done 0 = Returned (Examples.py "Completed" "Completed"))
      by reflexivity.
    assert (H2 : AutoML.exits (Examples.py "Completed" "Completed")) by reflexivity.
    exact (conj H1 (conj H2
      (proj1 (proj1 C5_exit_at_first_call Examples.py_done "job" _ 4 H1 H2)))).
  - assert (H1 : Examples.r_done 0 = Returned (Examples.r "Completed"))
      by reflexivity.
    assert (H2 : Tuning.exits (Examples.r "Completed")) by reflexivity.
    exact (conj H1 (conj H2
      (proj1 (proj2 C5_exit_at_first_call Examples.r_done "tuning-job" "job" _ 4
                H1 H2)))).
Defined.

(** C6, as stated, fails: in the Python cell a snapshot whose primary
    status is the non-terminal InProgress and whose secondary status is
    Failed ends the loop, so that no suspension and no further call follow
    it. *)
Lemma C6_counterexample :
  terminal_status (AutoML.primary (Examples.py "InProgress" "Failed")) = false /\
  Examples.py_secondary_failed 0 = Returned (Examples.py "InProgress" "Failed") /\
  AutoML.run_cell Examples.py_secondary_failed "job" 5 =
  (Val (AutoML.vars_of (Examples.py "InProgress" "Failed")),
   World 1 [Query "describe_auto_ml_job" "job"; Printed "InProgress - Failed"]) /\
  sleeps (log (snd (AutoML.run_cell Examples.py_secondary_failed "job" 5))) = 0.
Proof. repeat split. Qed.

(** C6, amended: every run starts with a call; whenever the most recent
    snapshot, reached after snapshots on which the loop went on, is
    non-terminal (and, in the Python cell, its secondary status is not
    Failed), a further call is made; and in every log the calls and
    suspensions are a call followed by pairs of exactly one suspension of
    60 seconds and one call, everything else in the log being output. *)
Theorem C6_one_sleep_per_iteration :
  (forall svc job fuel,
     (exists rest, log (snd (AutoML.run_cell svc job fuel)) =
                   Query "describe_auto_ml_job" job :: rest) /\
     effects (log (snd (AutoML.run_cell svc job fuel))) =
     AutoML.rhythm job (queries (log (snd (AutoML.run_cell svc job fuel))) - 1)) /\
  (forall svc job pre s fuel,
     Poll.answers svc (pre ++ [s]) -> Forall AutoML.continues pre ->
     terminal_status (AutoML.primary s) = false ->
     AutoML.AutoMLJobSecondaryStatus s <> "Failed" ->
     length pre < fuel ->
     length pre + 2 <= queries (log (snd (AutoML.run_cell svc job fuel)))) /\
  (forall svc name job fuel,
     (exists rest, log (snd (Tuning.run_cell svc name job fuel)) =
                   Query "describe_hyper_parameter_tuning_job" name :: rest) /\
     effects (log (snd (Tuning.run_cell svc name job fuel))) =
     Tuning.rhythm name (queries (log (snd (Tuning.run_cell svc name job fuel))) - 1)) /\
  (forall svc name job pre s fuel,
     Poll.answers svc (pre ++ [s]) -> Forall Tuning.continues pre ->
     terminal_status (Tuning.primary s) = false ->
     length pre < fuel ->
     length pre + 2 <= queries (log (snd (Tuning.run_cell svc name job fuel)))).
Proof.
  split; [|split; [|split]].
  - intros svc job fuel. split; [|apply automl_effects].
    rewrite automl_snd. apply run_starts_with_query.
  - intros svc job pre s fuel Hsvc Hgo Hnt Hsec Hfuel.
    pose proof (automl_goes_on svc job (pre ++ [s]) fuel Hsvc) as H.
    rewrite length_app in H; cbn [length] in H.
    assert (Hall : Forall AutoML.continues (pre ++ [s])).
    { apply Forall_app; split; trivial. constructor; [|constructor].
      now apply automl_nonterminal_continues. }
    specialize (H Hall). lia.
  - intros svc name job fuel. split; [|apply tuning_effects].
    rewrite tuning_run_shape. apply run_starts_with_query.
  - intros svc name job pre s fuel Hsvc Hgo Hnt Hfuel.
    pose proof (tuning_goes_on svc name job (pre ++ [s]) fuel Hsvc) as H.
    rewrite length_app in H; cbn [length] in H.
    assert (Hall : Forall Tuning.continues (pre ++ [s])).
    { apply Forall_app; split; trivial. constructor; [|constructor].
      now apply tuning_nonterminal_continues. }
    specialize (H Hall). lia.
Qed.

(** A job reported Stopped (Python) or Failed (R) and then in progress
    again: the snapshot in progress is followed by a third call. *)
Lemma C6_witness :
  (Poll.answers Examples.py_resumes
     ([Examples.py "Stopped" "Stopped"] ++ [Examples.py "InProgress" "ModelTuning"]) /\
   Forall AutoML.continues [Examples.py "Stopped" "Stopped"] /\
   terminal_status (AutoML.primary (Examples.py "InProgress" "ModelTuning")) = false /\
   AutoML.AutoMLJobSecondaryStatus (Examples.py "InProgress" "ModelTuning") <> "Failed" /\
   length [Examples.py "Stopped" "Stopped"] < 2 /\
   1 + 2 <= queries (log (snd (AutoML.run_cell Examples.py_resumes "job" 2)))) /\
  (Poll.answers Examples.r_resumes
     ([Examples.failed_tuning] ++ [Examples.r "InProgress"]) /\
   Forall Tuning.continues [Examples.failed_tuning] /\
   terminal_status (Tuning.primary (Examples.r "InProgress")) = false /\
   length [Examples.failed_tuning] < 2 /\
   1 + 2 <= queries (log (snd (Tuning.run_cell Examples.r_resumes "tuning-job" "job" 2)))).
Proof.
  split.
  - assert (H1 : Poll.answers Examples.py_resumes
                   ([Examples.py "Stopped" "Stopped"]
                      ++ [Examples.py "InProgress" "ModelTuning"])) by scripted.
    assert (H2 : Forall AutoML.continues [Examples.py "Stopped" "Stopped"])
      by (repeat constructor).
    assert (H3 : terminal_status
                   (AutoML.primary (Examples.py "InProgress" "ModelTuning")) = false)
      by reflexivity.
    assert (H4 : AutoML.AutoMLJobSecondaryStatus
                   (Examples.py "InProgress" "ModelTuning") <> "Failed")
      by discriminate.
    assert (H5 : length [Examples.py "Stopped" "Stopped"] < 2) by (simpl; lia).
    exact (conj H1 (conj H2 (conj H3 (conj H4 (conj H5
      (proj1 (proj2 C6_one_sleep_per_iteration) Examples.py_resumes "job" _ _ 2
         H1 H2 H3 H4 H5)))))).
  - assert (H1 : Poll.answers Examples.r_resumes
                   ([Examples.failed_tuning] ++ [Examples.r "InProgress"]))
      by scripted.
    assert (H2 : Forall Tuning.continues [Examples.failed_tuning])
      by (repeat constructor).
    assert (H3 : terminal_status (Tuning.primary (Examples.r "InProgress")) = false)
      by reflexivity.
    assert (H5 : length [Examples.failed_tuning] < 2) by (simpl; lia).
    exact (conj H1 (conj H2 (conj H3 (conj H5
      (proj2 (proj2 (proj2 C6_one_sleep_per_iteration)) Examples.r_resumes
         "tuning-job" "job" _ _ 2 H1 H2 H3 H5))))).
Defined.

(** C7, as stated, fails: the Python cell can end with a snapshot that is
    not terminal, one whose primary status is InProgress and whose
    secondary status is Failed. *)
Lemma C7_counterexample :
  AutoML.run_cell Examples.py_secondary_failed "job" 3 =
  (Val (AutoML.vars_of (Examples.py "InProgress" "Failed")),
   World 1 [Query "describe_auto_ml_job" "job"; Printed "InProgress - Failed"]) /\
  terminal_status (AutoML.status (AutoML.vars_of (Examples.py "InProgress" "Failed")))
  = false.
Proof. split; reflexivity. Qed.

(** C7, amended: for every sequence of snapshots s0 .. sn answered by
    successive calls, in which the loop goes on after s0 .. s(n-1) and sn
    has primary status Completed or, in the Python cell, secondary status
    Failed, the cell ends with sn as its result as soon as n iterations
    are allowed, and its output reports the snapshots fetched before sn
    (the Python cell prints the status line of every snapshot, sn
    included; the R cell writes the status and the counters of every
    snapshot before sn).  In every run, whatever its outcome (a value, an
    exception, or still polling), the snapshots fetched so far have been
    reported: in the Python cell every answered call, in the R cell every
    answered call that was followed by another call.  And a cell that
    ends has ended in this way. *)
Theorem C7_result_and_progress_output :
  (forall svc job pre sn fuel,
     Poll.answers svc (pre ++ [sn]) -> Forall AutoML.continues pre ->
     AutoML.AutoMLJobStatus sn = "Completed" \/
     AutoML.AutoMLJobSecondaryStatus sn = "Failed" ->
     length pre <= fuel ->
     AutoML.run_cell svc job fuel =
     (Val (AutoML.vars_of sn),
      World (length pre + 1) (AutoML.trace job (pre ++ [sn]))) /\
     forall s, In s (pre ++ [sn]) ->
       In (Printed (AutoML.status_line (AutoML.AutoMLJobStatus s)
                      (AutoML.AutoMLJobSecondaryStatus s)))
          (AutoML.trace job (pre ++ [sn]))) /\
  (forall svc job fuel k s,
     svc k = Returned s ->
     k < queries (log (snd (AutoML.run_cell svc job fuel))) ->
     In (Printed (AutoML.status_line (AutoML.AutoMLJobStatus s)
                    (AutoML.AutoMLJobSecondaryStatus s)))
        (log (snd (AutoML.run_cell svc job fuel)))) /\
  (forall svc job fuel v w,
     AutoML.run_cell svc job fuel = (Val v, w) ->
     exists pre,
       Poll.answers svc (pre ++ [AutoML.response v]) /\
       Forall AutoML.continues pre /\
       (AutoML.status v = "Completed" \/ AutoML.secondary_status v = "Failed") /\
       v = AutoML.vars_of (AutoML.response v) /\
       queries (log w) = length pre + 1) /\
  (forall svc name job pre sn fuel,
     Poll.answers svc (pre ++ [sn]) -> Forall Tuning.continues pre ->
     Tuning.HyperParameterTuningJobStatus sn = "Completed" ->
     length pre <= fuel ->
     Tuning.run_cell svc name job fuel =
     (Val sn, World (length pre + 1) (Tuning.trace name job (pre ++ [sn]))) /\
     forall s, In s pre ->
       incl (Tuning.before_sleep s) (Tuning.trace name job (pre ++ [sn]))) /\
  (forall svc name job fuel k s,
     svc k = Returned s ->
     k + 1 < queries (log (snd (Tuning.run_cell svc name job fuel))) ->
     incl (Tuning.before_sleep s) (log (snd (Tuning.run_cell svc name job fuel)))) /\
  (forall svc name job fuel v w,
     Tuning.run_cell svc name job fuel = (Val v, w) ->
     exists pre,
       Poll.answers svc (pre ++ [v]) /\
       Forall Tuning.continues pre /\
       Tuning.HyperParameterTuningJobStatus v = "Completed" /\
       queries (log w) = length pre + 1).
Proof.
  split; [|split; [|split; [|split; [|split]]]].
  - intros svc job pre sn fuel Hsvc Hgo Hstop Hfuel. split.
    + rewrite Nat.add_1_r. apply automl_done; trivial.
      now apply automl_exit_test.
    + intros s Hin.
      apply (trace_after AutoML.operation job AutoML.after_query AutoML.header
               AutoML.before_sleep (pre ++ [sn]) s Hin).
      now left.
  - intros svc job fuel k s Hk Hlt.
    rewrite automl_queries in Hlt. rewrite automl_snd in *.
    apply (run_reports_after svc AutoML.operation job AutoML.stop
             AutoML.after_query AutoML.header AutoML.before_sleep fuel k s Hk Hlt).
    now left.
  - intros svc job fuel v w Hrun.
    destruct (automl_val_inv svc job fuel v w Hrun)
      as (pre & sn & -> & Hsvc & Hgo & Hstop & ->).
    exists pre. cbn [AutoML.vars_of AutoML.response AutoML.status
                     AutoML.secondary_status log].
    repeat split; trivial.
    + now apply automl_exit_test.
    + rewrite automl_queries_trace, length_app. reflexivity.
  - intros svc name job pre sn fuel Hsvc Hgo Hstop Hfuel. split.
    + rewrite Nat.add_1_r. apply tuning_done; trivial.
      now apply tuning_exit_test.
    + intros s Hin. now apply trace_before.
  - intros svc name job fuel k s Hk Hlt.
    rewrite tuning_queries in Hlt. rewrite tuning_run_shape in *.
    now apply (run_reports_before svc Tuning.operation name Tuning.stop
                 Tuning.after_query (Tuning.header job) Tuning.before_sleep fuel k s).
  - intros svc name job fuel v w Hrun.
    destruct (tuning_val_inv svc name job fuel v w Hrun)
      as (pre & Hsvc & Hgo & Hstop & ->).
    exists pre. cbn [log]. repeat split; trivial.
    + now apply tuning_exit_test.
    + rewrite tuning_queries_trace, length_app. reflexivity.
Qed.

Lemma C7_witness :
  (Poll.answers Examples.py_completes (Examples.py_pre ++ [Examples.py_last]) /\
   Forall AutoML.continues Examples.py_pre /\
   (AutoML.AutoMLJobStatus Examples.py_last = "Completed" \/
    AutoML.AutoMLJobSecondaryStatus Examples.py_last = "Failed") /\
   length Examples.py_pre <= 2 /\
   AutoML.run_cell Examples.py_completes "job" 2 =
   (Val (AutoML.vars_of Examples.py_last),
    World 3 (AutoML.trace "job" (Examples.py_pre ++ [Examples.py_last]))) /\
   forall s, In s (Examples.py_pre ++ [Examples.py_last]) ->
     In (Printed (AutoML.status_line (AutoML.AutoMLJobStatus s)
                    (AutoML.AutoMLJobSecondaryStatus s)))
        (AutoML.trace "job" (Examples.py_pre ++ [Examples.py_last]))) /\
  (Poll.answers Examples.r_completes (Examples.r_pre ++ [Examples.r_last]) /\
   Forall Tuning.continues Examples.r_pre /\
   Tuning.HyperParameterTuningJobStatus Examples.r_last = "Completed" /\
   length Examples.r_pre <= 2 /\
   Tuning.run_cell Examples.r_completes "tuning-job" "job" 2 =
   (Val Examples.r_last,
    World 3 (Tuning.trace "tuning-job" "job" (Examples.r_pre ++ [Examples.r_last]))) /\
   forall s, In s Examples.r_pre ->
     incl (Tuning.before_sleep s)
       (Tuning.trace "tuning-job" "job" (Examples.r_pre ++ [Examples.r_last]))).
Proof.
  split.
  - assert (H1 : Poll.answers Examples.py_completes
                   (Examples.py_pre ++ [Examples.py_last])) by scripted.
    assert (H2 : Forall AutoML.continues Examples.py_pre) by (repeat constructor).
    assert (H3 : AutoML.AutoMLJobStatus Examples.py_last = "Completed" \/
                 AutoML.AutoMLJobSecondaryStatus Examples.py_last = "Failed")
      by (left; reflexivity).
    assert (H4 : length Examples.py_pre <= 2) by (simpl; lia).
    exact (conj H1 (conj H2 (conj H3 (conj H4
      (proj1 C7_result_and_progress_output Examples.py_completes "job" _ _ 2
         H1 H2 H3 H4))))).
  - assert (H1 : Poll.answers Examples.r_completes
                   (Examples.r_pre ++ [Examples.r_last])) by scripted.
    assert (H2 : Forall Tuning.continues Examples.r_pre) by (repeat constructor).
    assert (H3 : Tuning.HyperParameterTuningJobStatus Examples.r_last = "Completed")
      by reflexivity.
    assert (H4 : length Examples.r_pre <= 2) by (simpl; lia).
    exact (conj H1 (conj H2 (conj H3 (conj H4
      (proj1 (proj2 (proj2 (proj2 C7_result_and_progress_output)))
         Examples.r_completes "tuning-job" "job" _ _ 2 H1 H2 H3 H4))))).
Defined.

(** C8, as stated, fails: the first call of the Python cell returns a
    non-terminal snapshot (primary status InProgress) whose secondary
    status is Failed, and the cell has returned after that one call. *)
Lemma C8_counterexample :
  terminal_status (AutoML.primary (Examples.py "InProgress" "Failed")) = false /\
  Examples.py_secondary_failed 0 = Returned (Examples.py "InProgress" "Failed") /\
  AutoML.run_cell Examples.py_secondary_failed "job" 0 =
  (Val (AutoML.vars_of (Examples.py "InProgress" "Failed")),
   World 1 [Query "describe_auto_ml_job" "job"; Printed "InProgress - Failed"]).
Proof. repeat split. Qed.

(** C8, amended: there is no timeout and no cap on the number of polls.
    For every n, if the first n calls all return non-terminal snapshots,
    none of which, in the Python cell, has secondary status Failed, then
    the cell has not returned after those n calls: run up to its n-th call
    it is still going, and whenever it does return it has made more than n
    calls. *)
Theorem C8_no_exit_before_exit_test :
  (forall svc job hist fuel,
     Poll.answers svc hist ->
     Forall (fun s => terminal_status (AutoML.primary s) = false /\
                      AutoML.AutoMLJobSecondaryStatus s <> "Failed") hist ->
     (length hist = fuel + 1 ->
      AutoML.run_cell svc job fuel =
      (Running, World (length hist) (AutoML.trace job hist))) /\
     (forall v w, AutoML.run_cell svc job fuel = (Val v, w) ->
                  length hist < queries (log w))) /\
  (forall svc name job hist fuel,
     Poll.answers svc hist ->
     Forall (fun s => terminal_status (Tuning.primary s) = false) hist ->
     (length hist = fuel + 1 ->
      Tuning.run_cell svc name job fuel =
      (Running, World (length hist) (Tuning.trace name job hist))) /\
     (forall v w, Tuning.run_cell svc name job fuel = (Val v, w) ->
                  length hist < queries (log w))).
Proof.
  split.
  - intros svc job hist fuel Hsvc Hnt.
    assert (Hgo : Forall AutoML.continues hist).
    { revert Hnt. apply Forall_impl. intros s [H1 H2].
      now apply automl_nonterminal_continues. }
    split.
    + intros Hlen. rewrite Hlen, Nat.add_1_r. apply automl_running; trivial. lia.
    + intros v w Hrun.
      destruct (automl_val_inv svc job fuel v w Hrun)
        as (pre & sn & -> & Hsvc' & Hgo' & Hstop & ->).
      cbn [log]. rewrite automl_queries_trace, length_app. cbn [length].
      pose proof (going_before svc AutoML.stop hist (length pre) sn Hsvc
                    (automl_going _ Hgo) (answers_at svc pre sn Hsvc')
                    (proj1 (automl_stop sn) Hstop)).
      lia.
  - intros svc name job hist fuel Hsvc Hnt.
    assert (Hgo : Forall Tuning.continues hist).
    { revert Hnt. apply Forall_impl. intros s H.
      now apply tuning_nonterminal_continues. }
    split.
    + intros Hlen. rewrite Hlen, Nat.add_1_r. apply tuning_running; trivial. lia.
    + intros v w Hrun.
      destruct (tuning_val_inv svc name job fuel v w Hrun)
        as (pre & Hsvc' & Hgo' & Hstop & ->).
      cbn [log]. rewrite tuning_queries_trace, length_app. cbn [length].
      pose proof (going_before svc Tuning.stop hist (length pre) v Hsvc
                    (tuning_going _ Hgo) (answers_at svc pre v Hsvc')
                    (proj1 (tuning_stop v) Hstop)).
      lia.
Qed.

Lemma C8_witness :
  (Poll.answers Examples.py_completes Examples.py_pre /\
   length Examples.py_pre = 1 + 1 /\
   AutoML.run_cell Examples.py_completes "job" 1 =
   (Running,
    World 2
      [Query "describe_auto_ml_job" "job"; Printed "InProgress - AnalyzingData";
       Sleep 60;
       Query "describe_auto_ml_job" "job"; Printed "InProgress - ModelTuning"])) /\
  (Poll.answers Examples.r_completes Examples.r_pre /\
   length Examples.r_pre = 1 + 1 /\
   Tuning.run_cell Examples.r_completes "tuning-job" "job" 1 =
   (Running, World 2 (Tuning.trace "tuning-job" "job" Examples.r_pre))).
Proof.
  split.
  - assert (H1 : Poll.answers Examples.py_completes Examples.py_pre) by scripted.
    assert (H2 : Forall (fun s => terminal_status (AutoML.primary s) = false /\
                                  AutoML.AutoMLJobSecondaryStatus s <> "Failed")
                   Examples.py_pre)
      by (repeat constructor; discriminate).
    assert (H3 : length Examples.py_pre = 1 + 1) by reflexivity.
    exact (conj H1 (conj H3
      (proj1 (proj1 C8_no_exit_before_exit_test Examples.py_completes "job" _ 1
                H1 H2) H3))).
  - assert (H1 : Poll.answers Examples.r_completes Examples.r_pre) by scripted.
    assert (H2 : Forall (fun s => terminal_status (Tuning.primary s) = false)
                   Examples.r_pre)
      by (repeat constructor).
    assert (H3 : length Examples.r_pre = 1 + 1) by reflexivity.
    exact (conj H1 (conj H3
      (proj1 (proj2 C8_no_exit_before_exit_test Examples.r_completes "tuning-job"
                "job" _ 1 H1 H2) H3))).
Defined.

(** C9: in the Python cell the loop is left exactly when the primary
    status is Completed or the secondary status is Failed.  For a snapshot
    s reached after snapshots on which the loop went on: the condition of
    the [while] is false on s if and only if that disjunction holds; if
    the secondary status of s is Failed the cell ends at s whatever its
    primary status (InProgress, say); and if the primary status of s is
    Failed or Stopped while its secondary status is not Failed, the cell
    calls again. *)
Theorem C9_automl_exit_condition :
  forall svc job pre s fuel,
    Poll.answers svc (pre ++ [s]) -> Forall AutoML.continues pre ->
    length pre < fuel ->
    (AutoML.loop_condition (AutoML.vars_of s) = false <->
     AutoML.AutoMLJobStatus s = "Completed" \/
     AutoML.AutoMLJobSecondaryStatus s = "Failed") /\
    (AutoML.AutoMLJobStatus s = "Completed" \/
     AutoML.AutoMLJobSecondaryStatus s = "Failed" ->
     AutoML.run_cell svc job fuel =
     (Val (AutoML.vars_of s), World (length pre + 1) (AutoML.trace job (pre ++ [s]))) /\
     queries (AutoML.trace job (pre ++ [s])) = length pre + 1) /\
    (~ (AutoML.AutoMLJobStatus s = "Completed" \/
        AutoML.AutoMLJobSecondaryStatus s = "Failed") ->
     length pre + 2 <= queries (log (snd (AutoML.run_cell svc job fuel)))) /\
    (AutoML.AutoMLJobStatus s = "Failed" \/ AutoML.AutoMLJobStatus s = "Stopped" ->
     AutoML.AutoMLJobSecondaryStatus s <> "Failed" ->
     length pre + 2 <= queries (log (snd (AutoML.run_cell svc job fuel)))).
Proof.
  intros svc job pre s fuel Hsvc Hgo Hfuel.
  assert (Hon : AutoML.continues s ->
                length pre + 2 <= queries (log (snd (AutoML.run_cell svc job fuel)))).
  { intros Hs.
    pose proof (automl_goes_on svc job (pre ++ [s]) fuel Hsvc) as H.
    rewrite length_app in H; cbn [length] in H.
    assert (Forall AutoML.continues (pre ++ [s]))
      by (apply Forall_app; split; trivial; now constructor).
    specialize (H H0). lia. }
  split; [apply automl_exit_test|]. split; [|split].
  - intros Hs. apply automl_exit_test in Hs. split.
    + rewrite Nat.add_1_r. apply automl_done; trivial. lia.
    + rewrite automl_queries_trace, length_app. reflexivity.
  - intros Hs. apply Hon. apply automl_continue_test.
    split; intros E; apply Hs; [now left|now right].
  - intros Hp Hsec. apply Hon. apply automl_continue_test. split; trivial.
    destruct Hp as [-> | ->]; discriminate.
Qed.

Lemma C9_witness :
  (Poll.answers Examples.py_secondary_failed ([] ++ [Examples.py "InProgress" "Failed"]) /\
   AutoML.run_cell Examples.py_secondary_failed "job" 1 =
   (Val (AutoML.vars_of (Examples.py "InProgress" "Failed")),
    World 1 [Query "describe_auto_ml_job" "job"; Printed "InProgress - Failed"])) /\
  (Poll.answers Examples.py_stopped ([] ++ [Examples.py "Stopped" "Stopped"]) /\
   2 <= queries (log (snd (AutoML.run_cell Examples.py_stopped "job" 1)))) /\
  (Poll.answers Examples.py_failed_step
     ([] ++ [Examples.py "Failed" "ExplainabilityError"]) /\
   2 <= queries (log (snd (AutoML.run_cell Examples.py_failed_step "job" 1)))).
Proof.
  assert (H2 : Forall AutoML.continues []) by constructor.
  assert (H3 : @length AutoML.response_t [] < 1) by (simpl; lia).
  assert (Ha : Poll.answers Examples.py_secondary_failed
                 ([] ++ [Examples.py "InProgress" "Failed"])) by scripted.
  assert (Hb : Poll.answers Examples.py_stopped
                 ([] ++ [Examples.py "Stopped" "Stopped"])) by scripted.
  assert (Hc : Poll.answers Examples.py_failed_step
                 ([] ++ [Examples.py "Failed" "ExplainabilityError"])) by scripted.
  split; [split; [exact Ha|] | split; (split; [assumption|])].
  - apply (proj1 (proj2 (C9_automl_exit_condition Examples.py_secondary_failed "job"
                           [] _ 1 Ha H2 H3))).
    right; reflexivity.
  - apply (proj2 (proj2 (proj2 (C9_automl_exit_condition Examples.py_stopped "job"
                                  [] _ 1 Hb H2 H3)))).
    + right; reflexivity.
    + discriminate.
  - apply (proj2 (proj2 (proj2 (C9_automl_exit_condition Examples.py_failed_step "job"
                                  [] _ 1 Hc H2 H3)))).
    + left; reflexivity.
    + discriminate.
Defined.

(** C10: the R cell ends if and only if some call returns a snapshot whose
    status is Completed.  For every infinite sequence of snapshots, the
    cell returns within some number of iterations exactly when one of the
    snapshots is Completed; and when none is (a job that stays Failed or
    Stopped, say) the cell is still polling after any number of
    iterations, having made one call more than that number. *)
Theorem C10_tuning_ends_iff_completed :
  forall (snapshot : nat -> Tuning.response_t) name job,
    ((exists fuel v w,
        Tuning.run_cell (fun k => Returned (snapshot k)) name job fuel = (Val v, w)) <->
     (exists k, Tuning.HyperParameterTuningJobStatus (snapshot k) = "Completed")) /\
    ((forall k, Tuning.HyperParameterTuningJobStatus (snapshot k) <> "Completed") ->
     forall fuel, exists w,
       Tuning.run_cell (fun k => Returned (snapshot k)) name job fuel = (Running, w) /\
       queries (log w) = fuel + 1).
Proof.
  intros snapshot name job.
  assert (Hforever :
    (forall k, Tuning.HyperParameterTuningJobStatus (snapshot k) <> "Completed") ->
    forall fuel, exists w,
      Tuning.run_cell (fun k => Returned (snapshot k)) name job fuel = (Running, w) /\
      queries (log w) = fuel + 1).
  { intros Hnone fuel.
    destruct (tuning_forever (fun k => Returned (snapshot k)) name job)
      with (fuel := fuel) as (hist & Hlen & Hsvc & E).
    - intros k. exists (snapshot k). split; trivial.
      now apply tuning_continue_test.
    - eexists; split; [exact E|]. cbn [log].
      rewrite tuning_queries_trace. lia. }
  split; [split|exact Hforever].
  - intros (fuel & v & w & Hrun).
    destruct (tuning_val_inv _ name job fuel v w Hrun)
      as (pre & Hsvc & Hgo & Hstop & ->).
    exists (length pre).
    pose proof (answers_at _ pre v Hsvc) as Hv. cbn beta in Hv.
    injection Hv as ->. now apply tuning_exit_test.
  - intros (k & Hk).
    destruct (run_cases (fun k => Returned (snapshot k)) Tuning.operation name
                Tuning.stop Tuning.after_query (Tuning.header job)
                Tuning.before_sleep k)
      as (hist & Hsvc & Hgo &
          [(sn & Hl & Hs & Hsn & E)|[(e & Hl & He & E)|(Hl & E)]]).
    + exists k, sn. eexists. rewrite tuning_run_shape. exact E.
    + discriminate.
    + pose proof (going_before _ Tuning.stop hist k (snapshot k) Hsvc Hgo eq_refl) as H.
      assert (Tuning.stop (snapshot k) = true)
        by (apply tuning_stop; now apply tuning_exit_test).
      specialize (H H0). lia.
Qed.

Lemma C10_witness :
  (forall k, Tuning.HyperParameterTuningJobStatus
               ((fun _ : nat => Examples.failed_tuning) k) <> "Completed") /\
  (exists w,
     Tuning.run_cell (fun k => Returned ((fun _ : nat => Examples.failed_tuning) k))
       "tuning-job" "job" 7 = (Running, w) /\
     queries (log w) = 7 + 1) /\
  (forall k, Tuning.HyperParameterTuningJobStatus
               ((fun _ : nat => Examples.r "Stopped") k) <> "Completed") /\
  (exists w,
     Tuning.run_cell (fun k => Returned ((fun _ : nat => Examples.r "Stopped") k))
       "tuning-job" "job" 7 = (Running, w) /\
     queries (log w) = 7 + 1).
Proof.
  assert (H1 : forall k, Tuning.HyperParameterTuningJobStatus
                 ((fun _ : nat => Examples.failed_tuning) k) <> "Completed")
    by (intros k; discriminate).
  assert (H2 : forall k, Tuning.HyperParameterTuningJobStatus
                 ((fun _ : nat => Examples.r "Stopped") k) <> "Completed")
    by (intros k; discriminate).
  exact (conj H1 (conj
    (proj2 (C10_tuning_ends_iff_completed (fun _ => Examples.failed_tuning)
              "tuning-job" "job") H1 7)
    (conj H2
    (proj2 (C10_tuning_ends_iff_completed (fun _ => Examples.r "Stopped")
              "tuning-job" "job") H2 7)))).
Defined.

(** * Beyond the claims *)

(** ** More facts on runs of the common shape *)

Section PollMore.
Context {S : Type}.
Variable svc : service S.
Variables operation job : string.
Variable stop : S -> bool.
Variable after_query : S -> list event.
Variable header : list event.
Variable before_sleep : S -> list event.

Local Abbreviation run := (Poll.run svc operation job stop after_query header before_sleep).
Local Abbreviation iterations := (Poll.iterations operation job after_query before_sleep).
Local Abbreviation trace := (Poll.trace operation job after_query header before_sleep).
Local Abbreviation trace_raised :=
  (Poll.trace_raised operation job after_query header before_sleep).

(** A run that has ended is not changed by allowing more iterations. *)
Lemma run_stable fuel fuel' o w :
  run fuel w0 = (o, w) -> o <> Running -> fuel <= fuel' -> run fuel' w0 = (o, w).
Proof.
  intros Hrun Hend Hle.
  destruct (run_cases svc operation job stop after_query header before_sleep fuel)
    as (hist & Hsvc & Hgo &
        [(sn & Hl & Hs & Hsn & E)|[(e & Hl & He & E)|(Hl & E)]]);
    rewrite E in Hrun; injection Hrun as <- <-.
  - apply run_done; [now apply answers_snoc|trivial|trivial|lia].
  - apply run_raised; [trivial|trivial|trivial|lia].
  - now destruct Hend.
Qed.

(** Where the events of a log come from. *)
Lemma In_iterations e l : forall cur,
  In e (iterations cur l) ->
  e = Sleep 60 \/ e = Query operation job \/
  (exists s, In s (removelast (cur :: l)) /\ In e (before_sleep s)) \/
  (exists s, In s l /\ In e (after_query s)).
Proof.
  induction l as [|x l IH]; intros cur Hin; [destruct Hin|].
  cbn [Poll.iterations] in Hin.
  change (removelast (cur :: x :: l)) with (cur :: removelast (x :: l)).
  apply in_app_or in Hin as [Hin|Hin].
  { right; right; left. exists cur; split; trivial. now left. }
  cbn [app] in Hin.
  destruct Hin as [<-|[<-|Hin]]; [now left|now right; left|].
  apply in_app_or in Hin as [Hin|Hin].
  { right; right; right. exists x; split; trivial. now left. }
  destruct (IH x Hin) as [H|[H|[(s & Hs & H)|(s & Hs & H)]]].
  - now left.
  - now right; left.
  - right; right; left. exists s; split; trivial. now right.
  - right; right; right. exists s; split; trivial. now right.
Qed.

Lemma In_trace e hist :
  In e (trace hist) ->
  e = Sleep 60 \/ e = Query operation job \/ In e header \/
  (exists s, In s (removelast hist) /\ In e (before_sleep s)) \/
  (exists s, In s hist /\ In e (after_query s)).
Proof.
  destruct hist as [|s0 l]; intros Hin; [destruct Hin|].
  cbn [Poll.trace] in Hin. destruct Hin as [<-|Hin]; [now right; left|].
  apply in_app_or in Hin as [Hin|Hin].
  { do 4 right. exists s0; split; trivial. now left. }
  apply in_app_or in Hin as [Hin|Hin]; [now right; right; left|].
  destruct (In_iterations e l s0 Hin) as [H|[H|[(s & Hs & H)|(s & Hs & H)]]].
  - now left.
  - now right; left.
  - right; right; right; left. now exists s.
  - do 4 right. exists s; split; trivial. now right.
Qed.

Lemma In_removelast {A} (l : list A) x : In x (removelast l) -> In x l.
Proof.
  induction l as [|a l IH]; [trivial|].
  destruct l as [|b l]; [intros []|].
  change (removelast (a :: b :: l)) with (a :: removelast (b :: l)).
  intros [->|H]; [now left|right; now apply IH].
Qed.

Lemma In_last {A} (l : list A) : forall a, In (last l a) (a :: l).
Proof.
  induction l as [|b l IH]; intros a; [now left|].
  rewrite last_cons. right. apply IH.
Qed.

Lemma answered hist s :
  Poll.answers svc hist -> In s hist -> exists k, svc k = Returned s.
Proof.
  intros Hsvc Hin. apply In_nth_error in Hin as (k & Hk).
  exists k. now apply Hsvc.
Qed.

Lemma run_events fuel e :
  In e (log (snd (run fuel w0))) ->
  e = Sleep 60 \/ e = Query operation job \/ In e header \/
  (exists k s, svc k = Returned s /\ stop s = false /\ In e (before_sleep s)) \/
  (exists k s, svc k = Returned s /\ In e (after_query s)).
Proof.
  assert (Hgoing : forall hist s, Poll.answers svc hist ->
            Forall (Poll.going stop) hist -> In s hist ->
            exists k, svc k = Returned s /\ stop s = false).
  { intros hist s Hsvc Hgo Hin.
    destruct (answered hist s Hsvc Hin) as (k & Hk). exists k; split; trivial.
    rewrite Forall_forall in Hgo. now apply Hgo. }
  destruct (run_cases svc operation job stop after_query header before_sleep fuel)
    as (hist & Hsvc & Hgo &
        [(sn & Hl & Hs & Hsn & ->)|[(x & Hl & He & ->)|(Hl & ->)]]);
    cbn [snd log]; intros Hin.
  - destruct (In_trace e _ Hin) as [H|[H|[H|[(s & Hs' & H)|(s & Hs' & H)]]]].
    + now left.
    + now right; left.
    + now right; right; left.
    + rewrite removelast_last in Hs'.
      destruct (Hgoing hist s Hsvc Hgo Hs') as (k & Hk & Hst).
      right; right; right; left. now exists k, s.
    + destruct (answered (hist ++ [sn]) s (answers_snoc svc hist sn Hsvc Hs) Hs')
        as (k & Hk).
      do 4 right. now exists k, s.
  - destruct hist as [|s0 l]; cbn [Poll.trace_raised] in Hin.
    { destruct Hin as [<-|[]]. now right; left. }
    apply in_app_or in Hin as [Hin|Hin].
    + destruct (In_trace e _ Hin) as [H|[H|[H|[(s & Hs' & H)|(s & Hs' & H)]]]].
      * now left.
      * now right; left.
      * now right; right; left.
      * destruct (Hgoing (s0 :: l) s Hsvc Hgo (In_removelast _ _ Hs'))
          as (k & Hk & Hst).
        right; right; right; left. now exists k, s.
      * destruct (answered (s0 :: l) s Hsvc Hs') as (k & Hk).
        do 4 right. now exists k, s.
    + apply in_app_or in Hin as [Hin|Hin].
      * pose proof (In_last l s0) as Hlast.
        destruct (Hgoing (s0 :: l) _ Hsvc Hgo Hlast) as (k & Hk & Hst).
        right; right; right; left. now exists k, (last l s0).
      * cbn [app] in Hin. destruct Hin as [<-|[<-|[]]]; [now left|now right; left].
  - destruct (In_trace e _ Hin) as [H|[H|[H|[(s & Hs' & H)|(s & Hs' & H)]]]].
    + now left.
    + now right; left.
    + now right; right; left.
    + destruct (Hgoing hist s Hsvc Hgo (In_removelast _ _ Hs')) as (k & Hk & Hst).
      right; right; right; left. now exists k, s.
    + destruct (answered hist s Hsvc Hs') as (k & Hk).
      do 4 right. now exists k, s.
Qed.

End PollMore.

(** ** Time asleep, and the printed lines *)

Lemma slept_effects (l : list event) : slept (effects l) = slept l.
Proof.
  unfold effects.
  induction l as [|[] l IH]; cbn; trivial; now rewrite IH.
Qed.

Lemma slept_rhythm op job n : slept (Poll.rhythm op job n) = 60 * n.
Proof.
  unfold Poll.rhythm. cbn [slept].
  induction n as [|n IH]; [reflexivity|].
  cbn [repeat concat app slept]. rewrite IH. lia.
Qed.





(** X2: in every run of either cell the time spent asleep is 60 seconds
    for each status call after the first. *)
Theorem X2_time_asleep :
  (forall svc job fuel,
     slept (log (snd (AutoML.run_cell svc job fuel))) =
     60 * (queries (log (snd (AutoML.run_cell svc job fuel))) - 1)) /\
  (forall svc name job fuel,
     slept (log (snd (Tuning.run_cell svc name job fuel))) =
     60 * (queries (log (snd (Tuning.run_cell svc name job fuel))) - 1)).
Proof.
  split.
  - intros svc job fuel.
    rewrite <- slept_effects, automl_effects. unfold AutoML.rhythm.
    now rewrite slept_rhythm.
  - intros svc name job fuel.
    rewrite <- slept_effects, tuning_effects. unfold Tuning.rhythm.
    now rewrite slept_rhythm.
Qed.


(** X4: the R cell never writes the status Completed.  Every status line
    it writes carries the status of a snapshot that a call returned and on
    which the loop went on, so the completion of the job is never
    announced in the output. *)
Theorem X4_tuning_never_writes_completed :
  forall svc name job fuel st,
    In (Cat [RStr "Hyperparameter Tuning Job Status: "; RStr st; RStr Tuning.nl])
       (log (snd (Tuning.run_cell svc name job fuel))) ->
    st <> "Completed" /\
    exists k s, svc k = Returned s /\ Tuning.HyperParameterTuningJobStatus s = st.
Proof.
  intros svc name job fuel st Hin. rewrite tuning_run_shape in Hin.
  apply run_events in Hin
    as [H|[H|[H|[(k & s & Hk & Hst & H)|(k & s & Hk & H)]]]];
    try discriminate.
  - destruct H as [H|[H|[]]]; discriminate.
  - destruct H as [H|[H|[H|[H|[]]]]]; try discriminate.
    injection H as <-. split; [|now exists k, s].
    apply tuning_continue_test. unfold Tuning.continues.
    unfold Tuning.stop in Hst. now apply negb_false_iff in Hst.
  - destruct H.
Qed.

Lemma X4_witness :
  In (Cat [RStr "Hyperparameter Tuning Job Status: "; RStr "InProgress";
           RStr Tuning.nl])
     (log (snd (Tuning.run_cell Examples.r_completes "tuning-job" "job" 2))) /\
  "InProgress" <> "Completed" /\
  exists k s, Examples.r_completes k = Returned s /\
              Tuning.HyperParameterTuningJobStatus s = "InProgress".
Proof.
  assert (H : In (Cat [RStr "Hyperparameter Tuning Job Status: "; RStr "InProgress";
                       RStr Tuning.nl])
                (log (snd (Tuning.run_cell Examples.r_completes "tuning-job" "job" 2))))
    by (vm_compute; tauto).
  exact (conj H
    (X4_tuning_never_writes_completed Examples.r_completes "tuning-job" "job" 2 _ H)).
Defined.

(** ** Job names *)

Lemma digit_inj x y : x < 10 -> y < 10 -> Clock.digit x = Clock.digit y -> x = y.
Proof.
  intros Hx Hy H. unfold Clock.digit in H.
  apply (f_equal nat_of_ascii) in H.
  rewrite !nat_ascii_embedding in H by lia. lia.
Qed.

(** Two fields below 100 with the same two digits are equal, whatever
    follows the digits. *)
Lemma two_digits_inj a b (r r' : string) :
  a < 100 -> b < 100 ->
  (Clock.two_digits a ++ r = Clock.two_digits b ++ r')%string -> a = b /\ r = r'.
Proof.
  intros Ha Hb H.
  assert (Hqa : a / 10 < 10) by (apply Nat.Div0.div_lt_upper_bound; lia).
  assert (Hqb : b / 10 < 10) by (apply Nat.Div0.div_lt_upper_bound; lia).
  assert (Hra : a mod 10 < 10) by (apply Nat.mod_upper_bound; lia).
  assert (Hrb : b mod 10 < 10) by (apply Nat.mod_upper_bound; lia).
  pose proof (Nat.div_mod_eq a 10) as Ea. pose proof (Nat.div_mod_eq b 10) as Eb.
  unfold Clock.two_digits in H.
  remember (a / 10) as qa. remember (b / 10) as qb.
  remember (a mod 10) as ra. remember (b mod 10) as rb.
  cbn [append] in H. injection H as H1 H2 H3.
  apply digit_inj in H1; trivial. apply digit_inj in H2; trivial.
  split; [lia|trivial].
Qed.

Lemma append_inv_head (p a b : string) : (p ++ a = p ++ b)%string -> a = b.
Proof.
  induction p as [|c p IH]; cbn [append]; intros H; trivial.
  injection H as H. now apply IH.
Qed.

Lemma automl_job_name_format t :
  AutoMLCell.job_name t =
  ("autopilot-parquet-" ++ Clock.two_digits (Clock.tm_mon t) ++ "-" ++
   Clock.two_digits (Clock.tm_mday t) ++ "-" ++
   Clock.two_digits (Clock.tm_hour t) ++ "-" ++
   Clock.two_digits (Clock.tm_min t) ++ "")%string.
Proof. reflexivity. Qed.

(** X5: the name of the AutoML job has 29 characters whatever the time,
    and it records the month, the day, the hour and the minute of the UTC
    time and nothing else: two times give the same job name exactly when
    they agree on these four fields, so runs in the same minute, or at the
    same minute of another year, ask for the same job name. *)
Theorem X5_automl_job_name :
  forall t1 t2,
    Clock.in_range t1 -> Clock.in_range t2 ->
    String.length (AutoMLCell.job_name t1) = 29 /\
    (AutoMLCell.job_name t1 = AutoMLCell.job_name t2 <->
     Clock.tm_mon t1 = Clock.tm_mon t2 /\ Clock.tm_mday t1 = Clock.tm_mday t2 /\
     Clock.tm_hour t1 = Clock.tm_hour t2 /\ Clock.tm_min t1 = Clock.tm_min t2).
Proof.
  intros t1 t2 (Hm1 & Hd1 & Hh1 & Hn1 & _) (Hm2 & Hd2 & Hh2 & Hn2 & _).
  split; [reflexivity|]. rewrite !automl_job_name_format. split.
  - intros H. apply append_inv_head in H.
    apply two_digits_inj in H as [E1 H]; [|lia ..]. apply append_inv_head in H.
    apply two_digits_inj in H as [E2 H]; [|lia ..]. apply append_inv_head in H.
    apply two_digits_inj in H as [E3 H]; [|lia ..]. apply append_inv_head in H.
    apply two_digits_inj in H as [E4 H]; [|lia ..].
    now repeat split.
  - now intros (-> & -> & -> & ->).
Qed.

Lemma X5_witness :
  Clock.in_range (Clock.StructTime 2026 3 7 9 5 42) /\
  Clock.in_range (Clock.StructTime 2027 3 7 9 5 11) /\
  String.length (AutoMLCell.job_name (Clock.StructTime 2026 3 7 9 5 42)) = 29 /\
  AutoMLCell.job_name (Clock.StructTime 2026 3 7 9 5 42) =
  AutoMLCell.job_name (Clock.StructTime 2027 3 7 9 5 11).
Proof.
  assert (H1 : Clock.in_range (Clock.StructTime 2026 3 7 9 5 42))
    by (unfold Clock.in_range; simpl; lia).
  assert (H2 : Clock.in_range (Clock.StructTime 2027 3 7 9 5 11))
    by (unfold Clock.in_range; simpl; lia).
  refine (conj H1 (conj H2 (conj (proj1 (X5_automl_job_name _ _ H1 H2)) _))).
  apply (proj2 (X5_automl_job_name _ _ H1 H2)). simpl. repeat split.
Defined.

Lemma tuning_job_name_format t :
  TuningNames.job_name t =
  ("sagemaker-tune-xgboost-" ++ Clock.two_digits (Clock.tm_hour t) ++ "-" ++
   Clock.two_digits (Clock.tm_min t) ++ "-" ++
   Clock.two_digits (Clock.tm_sec t) ++ "")%string.
Proof. reflexivity. Qed.

Lemma tuning_model_name_format t :
  TuningNames.model_name t =
  ("sagemaker-model-xgboost-" ++ Clock.two_digits (Clock.tm_hour t) ++ "-" ++
   Clock.two_digits (Clock.tm_min t) ++ "-" ++
   Clock.two_digits (Clock.tm_sec t) ++ "")%string.
Proof. reflexivity. Qed.

Lemma time_of_day_inj (p : string) t1 t2 :
  Clock.in_range t1 -> Clock.in_range t2 ->
  (p ++ Clock.two_digits (Clock.tm_hour t1) ++ "-" ++
   Clock.two_digits (Clock.tm_min t1) ++ "-" ++
   Clock.two_digits (Clock.tm_sec t1) ++ "" =
   p ++ Clock.two_digits (Clock.tm_hour t2) ++ "-" ++
   Clock.two_digits (Clock.tm_min t2) ++ "-" ++
   Clock.two_digits (Clock.tm_sec t2) ++ "")%string ->
  Clock.tm_hour t1 = Clock.tm_hour t2 /\ Clock.tm_min t1 = Clock.tm_min t2 /\
  Clock.tm_sec t1 = Clock.tm_sec t2.
Proof.
  intros (_ & _ & Hh1 & Hn1 & Hs1) (_ & _ & Hh2 & Hn2 & Hs2) H.
  apply append_inv_head in H.
  apply two_digits_inj in H as [E1 H]; [|lia ..]. apply append_inv_head in H.
  apply two_digits_inj in H as [E2 H]; [|lia ..]. apply append_inv_head in H.
  apply two_digits_inj in H as [E3 H]; [|lia ..].
  now repeat split.
Qed.

(** X6: the names of the tuning job and of the model in the R notebook
    have 31 and 32 characters whatever the time, and they record the hour,
    the minute and the second of the local time and no date: two times
    give the same name exactly when they agree on these three fields, so
    the same time of day on another day gives the same name again. *)
Theorem X6_tuning_names :
  forall t1 t2,
    Clock.in_range t1 -> Clock.in_range t2 ->
    String.length (TuningNames.job_name t1) = 31 /\
    String.length (TuningNames.model_name t1) = 32 /\
    (TuningNames.job_name t1 = TuningNames.job_name t2 <->
     Clock.tm_hour t1 = Clock.tm_hour t2 /\ Clock.tm_min t1 = Clock.tm_min t2 /\
     Clock.tm_sec t1 = Clock.tm_sec t2) /\
    (TuningNames.model_name t1 = TuningNames.model_name t2 <->
     Clock.tm_hour t1 = Clock.tm_hour t2 /\ Clock.tm_min t1 = Clock.tm_min t2 /\
     Clock.tm_sec t1 = Clock.tm_sec t2).
Proof.
  intros t1 t2 H1 H2.
  split; [reflexivity|]. split; [reflexivity|].
  rewrite !tuning_job_name_format, !tuning_model_name_format. split; split.
  - now apply time_of_day_inj.
  - now intros (-> & -> & ->).
  - now apply time_of_day_inj.
  - now intros (-> & -> & ->).
Qed.

Lemma X6_witness :
  Clock.in_range (Clock.StructTime 2026 3 7 9 5 42) /\
  Clock.in_range (Clock.StructTime 2026 3 8 9 5 42) /\
  String.length (TuningNames.job_name (Clock.StructTime 2026 3 7 9 5 42)) = 31 /\
  TuningNames.job_name (Clock.StructTime 2026 3 7 9 5 42) =
  TuningNames.job_name (Clock.StructTime 2026 3 8 9 5 42).
Proof.
  assert (H1 : Clock.in_range (Clock.StructTime 2026 3 7 9 5 42))
    by (unfold Clock.in_range; simpl; lia).
  assert (H2 : Clock.in_range (Clock.StructTime 2026 3 8 9 5 42))
    by (unfold Clock.in_range; simpl; lia).
  refine (conj H1 (conj H2 (conj (proj1 (X6_tuning_names _ _ H1 H2)) _))).
  apply (proj2 (proj1 (proj2 (proj2 (X6_tuning_names _ _ H1 H2))))).
  simpl. repeat split.
Defined.

(** ** Paths *)

Lemma string_app_assoc (a b c : string) : ((a ++ b) ++ c = a ++ b ++ c)%string.
Proof. induction a as [|x a IH]; cbn [append]; [reflexivity|now rewrite IH]. Qed.

(** The paths pasted together in the R notebook are S3 URIs of the
    session's bucket: the test data are read from data/abalone_test.csv,
    the batch transform writes below the output prefix given to the
    estimator, in a folder named after the tuning job, and the object
    downloaded afterwards is abalone_test.csv.out in that folder. *)
Lemma tuning_paths :
  forall bucket job_name,
    TuningNames.s3_test_url bucket =
    ("s3://" ++ bucket ++ "/data/abalone_test.csv")%string /\
    TuningNames.output_path bucket job_name =
    (TuningNames.s3_output bucket ++ "/batch_transform_output/" ++ job_name)%string /\
    TuningNames.batch_output (TuningNames.output_path bucket job_name) =
    (TuningNames.s3_output bucket ++ "/batch_transform_output/" ++ job_name
     ++ "/abalone_test.csv.out")%string.
Proof.
  intros bucket job_name.
  unfold TuningNames.s3_test_url, TuningNames.output_path, TuningNames.batch_output,
    TuningNames.s3_output, Clock.paste.
  cbn [String.concat append]. split; [reflexivity|].
  rewrite !string_app_assoc. cbn [append]. split; reflexivity.
Qed.

(** ** The data preparation *)

(** X7: the three columns that replace the sex column are a one-hot
    encoding of F, M and I.  For a sex that is not NA each of them is 0 or
    1, at most one of them is 1, female is 1 exactly for F, male exactly
    for M and infant exactly for I; any other value, a lower-case letter
    say, gives three zeros and no error.  For a sex that is NA all three
    are NA. *)
Theorem X7_one_hot_sex :
  OneHot.mutate None = OneHot.Encoded None None None /\
  forall s, exists f m i,
    OneHot.mutate (Some s) = OneHot.Encoded (Some f) (Some m) (Some i) /\
    (f = 0 \/ f = 1)%Z /\ (m = 0 \/ m = 1)%Z /\ (i = 0 \/ i = 1)%Z /\
    (f + m + i <= 1)%Z /\
    (f = 1%Z <-> s = "F") /\ (m = 1%Z <-> s = "M") /\ (i = 1%Z <-> s = "I") /\
    ((f + m + i = 1)%Z <-> s = "F" \/ s = "M" \/ s = "I").
Proof.
  split; [reflexivity|]. intros s.
  unfold OneHot.mutate, OneHot.equals.
  destruct (String.eqb_spec s "F") as [->|HF];
    [|destruct (String.eqb_spec s "M") as [->|HM];
      [|destruct (String.eqb_spec s "I") as [->|HI]]];
    cbn [OneHot.ifelse OneHot.as_integer String.eqb Ascii.eqb Bool.eqb andb];
    do 3 eexists; (split; [reflexivity|]);
    cbn; repeat split; try lia; try tauto; try discriminate; intros; try lia;
    try (intuition congruence).
Qed.

(** ** The split into training, test and validation data *)

Section SplitFacts.
Context {row : Type}.
Variable same_row : row -> row -> bool.
Variables sample_70 sample_50 : list row -> list row.

Lemma anti_join_In x y r :
  In r (Split.anti_join same_row x y) <->
  In r x /\ forall r', In r' y -> same_row r r' = false.
Proof.
  unfold Split.anti_join. rewrite filter_In, negb_true_iff.
  split; intros [Hx H]; split; trivial.
  - intros r' Hr'. destruct (same_row r r') eqn:E; trivial.
    assert (existsb (same_row r) y = true) by (apply existsb_exists; now exists r').
    congruence.
  - destruct (existsb (same_row r) y) eqn:E; trivial.
    apply existsb_exists in E as (r' & Hr' & E).
    rewrite H in E; [discriminate|trivial].
Qed.

Lemma anti_join_or x y r :
  In r x -> Split.matched same_row r y \/ In r (Split.anti_join same_row x y).
Proof.
  intros Hx. destruct (existsb (same_row r) y) eqn:E.
  - left. apply existsb_exists in E as (r' & Hr' & E). now exists r'.
  - right. unfold Split.anti_join. apply filter_In. split; trivial. now rewrite E.
Qed.

End SplitFacts.

(** X8: whatever rows the two random draws pick from their input, the
    three parts are made of rows of the data and nothing leaks between
    them: no validation row agrees on every column with a training row or
    with a test row, and no test row with a training row.  Every row of
    the data agrees with a training row, or with a test row, or is a
    validation row, and never with both a training row and a test row. *)
Theorem X8_split_parts :
  forall (row : Type) (same_row : row -> row -> bool)
         (sample_70 sample_50 : list row -> list row) (abalone : list row),
    (forall l, incl (sample_70 l) l) ->
    (forall l, incl (sample_50 l) l) ->
    (forall a b, same_row a b = true -> same_row b a = true) ->
    (forall a b c, same_row a b = true -> same_row b c = true -> same_row a c = true) ->
    let p := Split.split same_row sample_70 sample_50 abalone in
    (incl (Split.abalone_train p) abalone /\
     incl (Split.abalone_test p) abalone /\
     incl (Split.abalone_valid p) abalone) /\
    (forall a b, In a (Split.abalone_valid p) -> In b (Split.abalone_train p) ->
                 same_row a b = false) /\
    (forall a b, In a (Split.abalone_valid p) -> In b (Split.abalone_test p) ->
                 same_row a b = false) /\
    (forall a b, In a (Split.abalone_test p) -> In b (Split.abalone_train p) ->
                 same_row a b = false) /\
    (forall r, In r abalone ->
               Split.matched same_row r (Split.abalone_train p) \/
               Split.matched same_row r (Split.abalone_test p) \/
               In r (Split.abalone_valid p)) /\
    (forall r, ~ (Split.matched same_row r (Split.abalone_train p) /\
                  Split.matched same_row r (Split.abalone_test p))).
Proof.
  intros row same_row sample_70 sample_50 abalone H70 H50 Hsym Htrans p.
  unfold Split.split in p. cbn [Split.abalone_train Split.abalone_test
                                  Split.abalone_valid] in *.
  subst p. cbn [Split.abalone_train Split.abalone_test Split.abalone_valid].
  set (train := sample_70 abalone).
  set (rest := Split.anti_join same_row abalone train).
  set (test := sample_50 rest).
  assert (Htest : forall a b, In a test -> In b train -> same_row a b = false).
  { intros a b Ha Hb. apply H50 in Ha. apply anti_join_In in Ha as [_ Ha].
    now apply Ha. }
  repeat split.
  - apply H70.
  - intros r Hr. apply H50 in Hr. now apply anti_join_In in Hr as [Hr _].
  - intros r Hr. apply anti_join_In in Hr as [Hr _].
    now apply anti_join_In in Hr as [Hr _].
  - intros a b Ha Hb. apply anti_join_In in Ha as [Ha _].
    apply anti_join_In in Ha as [_ Ha]. now apply Ha.
  - intros a b Ha Hb. apply anti_join_In in Ha as [_ Ha]. now apply Ha.
  - exact Htest.
  - intros r Hr.
    destruct (anti_join_or same_row abalone train r Hr) as [H|H]; [now left|].
    right. now apply anti_join_or.
  - intros r [(a & Ha & Ea) (b & Hb & Eb)].
    assert (same_row b a = true) by (apply Htrans with r; [now apply Hsym|trivial]).
    rewrite (Htest b a Hb Ha) in H. discriminate.
Qed.

Lemma X8_witness :
  let p := Split.split Nat.eqb (firstn 2) (firstn 1) [1; 2; 1; 3; 4; 3] in
  p = Split.Parts [1; 2] [3] [4] /\
  (forall a b, In a (Split.abalone_valid p) -> In b (Split.abalone_train p) ->
               Nat.eqb a b = false) /\
  (forall r, In r [1; 2; 1; 3; 4; 3] ->
             Split.matched Nat.eqb r (Split.abalone_train p) \/
             Split.matched Nat.eqb r (Split.abalone_test p) \/
             In r (Split.abalone_valid p)).
Proof.
  assert (H1 : forall n (l : list nat), incl (firstn n l) l).
  { intros n l x Hx. revert n Hx. induction l as [|a l IH]; intros [|n] Hx;
      simpl in Hx; try contradiction.
    destruct Hx as [->|Hx]; [now left|right; now apply (IH n)]. }
  assert (H3 : forall a b, Nat.eqb a b = true -> Nat.eqb b a = true)
    by (intros a b H; now rewrite Nat.eqb_sym).
  assert (H4 : forall a b c, Nat.eqb a b = true -> Nat.eqb b c = true ->
                             Nat.eqb a c = true).
  { intros a b c Hab Hbc. apply Nat.eqb_eq in Hab, Hbc. apply Nat.eqb_eq. lia. }
  pose proof (X8_split_parts nat Nat.eqb (firstn 2) (firstn 1) [1; 2; 1; 3; 4; 3]
                (H1 2) (H1 1) H3 H4) as H.
  split; [reflexivity|]. split; [apply H|apply H].
Defined.

(** ** The whole Python cell *)

Lemma automl_calls_same_job svc job fuel op j :
  In (Query op j) (log (snd (AutoML.run_cell svc job fuel))) ->
  op = "describe_auto_ml_job" /\ j = job.
Proof.
  rewrite automl_snd. intros Hin.
  apply run_events in Hin
    as [H|[H|[H|[(k & s & Hk & Hst & H)|(k & s & Hk & H)]]]].
  - discriminate.
  - injection H as -> ->. now split.
  - destruct H.
  - destruct H.
  - destruct H as [H|[]]. discriminate.
Qed.

(** X9: the Python cell polls the job it has just asked for, and only
    that job.  It first prints the job name and sends one creation request
    carrying that name; every status call that follows is a
    describe_auto_ml_job call for the same name, and no second creation
    request is sent.  If the creation request raises, the cell ends with
    that exception without a single status call. *)
Theorem X9_automl_cell_polls_created_job :
  forall gmtime role bucket prefix create svc fuel,
    let name := AutoMLCell.job_name gmtime in
    let params := AutoMLCell.create_auto_ml_job_params name bucket prefix role in
    let run := AutoMLCell.cell gmtime role bucket prefix create svc fuel in
    AutoMLCell.AutoMLJobName params = name /\
    (exists rest,
       snd run =
       AutoMLCell.Stdout ("AutoML job: " ++ name)
         :: AutoMLCell.CreateAutoMLJob params :: rest /\
       (forall p, ~ In (AutoMLCell.CreateAutoMLJob p) rest) /\
       (forall op j, In (AutoMLCell.Polling (Query op j)) rest ->
                     op = "describe_auto_ml_job" /\
                     j = AutoMLCell.AutoMLJobName params)) /\
    (forall e, create params = Some e ->
       run = (Exn e,
              [AutoMLCell.Stdout ("AutoML job: " ++ name);
               AutoMLCell.CreateAutoMLJob params])).
Proof.
  intros gmtime role bucket prefix create svc fuel name params run.
  split; [reflexivity|].
  unfold run, AutoMLCell.cell. fold name. fold params.
  destruct (create params) as [e|] eqn:Ec.
  - split.
    + exists []. split; [reflexivity|]. split; [intros p []|intros op j []].
    + intros e' He. now injection He as <-.
  - split; [|discriminate].
    destruct (AutoML.run_cell svc name fuel) as [o w] eqn:E.
    exists (map AutoMLCell.Polling (log w)). split; [reflexivity|]. split.
    + intros p Hin. apply in_map_iff in Hin as (x & Hx & _). discriminate.
    + intros op j Hin. apply in_map_iff in Hin as (x & Hx & Hin).
      injection Hx as ->.
      apply (automl_calls_same_job svc name fuel op j). now rewrite E.
Qed.

Lemma X9_witness :
  (fun _ : AutoMLCell.request => Some "ResourceInUse")
    (AutoMLCell.create_auto_ml_job_params
       (AutoMLCell.job_name (Clock.StructTime 2026 3 7 9 5 42))
       "bucket" "sagemaker/DEMO-automl-parquet" "role")
  = Some "ResourceInUse" /\
  AutoMLCell.cell (Clock.StructTime 2026 3 7 9 5 42) "role" "bucket"
    "sagemaker/DEMO-automl-parquet" (fun _ => Some "ResourceInUse")
    Examples.py_completes 5 =
  (Exn "ResourceInUse",
   [AutoMLCell.Stdout "AutoML job: autopilot-parquet-03-07-09-05";
    AutoMLCell.CreateAutoMLJob
      (AutoMLCell.create_auto_ml_job_params "autopilot-parquet-03-07-09-05"
         "bucket" "sagemaker/DEMO-automl-parquet" "role")]).
Proof.
  assert (H : (fun _ : AutoMLCell.request => Some "ResourceInUse")
                (AutoMLCell.create_auto_ml_job_params
                   (AutoMLCell.job_name (Clock.StructTime 2026 3 7 9 5 42))
                   "bucket" "sagemaker/DEMO-automl-parquet" "role")
              = Some "ResourceInUse") by reflexivity.
  exact (conj H
    (proj2 (proj2 (X9_automl_cell_polls_created_job
                     (Clock.StructTime 2026 3 7 9 5 42) "role" "bucket"
                     "sagemaker/DEMO-automl-parquet"
                     (fun _ => Some "ResourceInUse") Examples.py_completes 5))
       "ResourceInUse" H)).
Defined.
